(** * Unified agent workflow: plan parsing, step dispatch and report

    A shallow embedding of
      - [src/unified_agent/workflow.py]       (module [UnifiedAgent]),
      - [src/src/unified_agent/workflow.py]   (module [SrcUnifiedAgent]),
      - [src/src/providers/infra_monitor/docker_temporal_agent.py]
                                              (module [DockerTemporalAgent]),
    together with the Python string operations they use (module [Py]) and
    the part of the Temporal interface they call (module [Temporal]). *)

From Stdlib Require Import String Ascii.
From Stdlib Require Import List NArith ZArith Bool Lia.
From Stdlib Require DecimalString.
Import ListNotations.

Set Implicit Arguments.

(** ** Python strings

    A Python [str] is a sequence of Unicode code points; a code point is a
    number in [N].  [lit] turns an ASCII literal into such a sequence. *)

Module Py.

Local Open Scope N_scope.

Definition char := N.
Definition str := list char.

Definition lit (s : string) : str :=
  map N_of_ascii (list_ascii_of_string s).

Arguments lit s%_string.

Definition comma : char := 44.
Definition colon : char := 58.
Definition newline : char := 10.

Definition char_eqb (a b : char) : bool := N.eqb a b.

Fixpoint str_eqb (a b : str) : bool :=
  match a, b with
  | [], [] => true
  | x :: a', y :: b' => char_eqb x y && str_eqb a' b'
  | _, _ => false
  end.

(** Truth value of a [str]: the empty string is false. *)
Definition truthy (s : str) : bool :=
  match s with [] => false | _ :: _ => true end.

(** Truth value of an optional [str] ([None] is false as well). *)
Definition truthy_opt (o : option str) : bool :=
  match o with None => false | Some s => truthy s end.

(** [s.split(sep)] for a separator of one character: never empty, the
    empty string gives one empty piece. *)
Fixpoint split (sep : char) (s : str) : list str :=
  match s with
  | [] => [[]]
  | c :: rest =>
      if char_eqb c sep then [] :: split sep rest
      else match split sep rest with
           | [] => [[c]]
           | p :: ps => (c :: p) :: ps
           end
  end.

(** [sep.join(parts)]. *)
Fixpoint join (sep : str) (parts : list str) : str :=
  match parts with
  | [] => []
  | [p] => p
  | p :: ps => p ++ sep ++ join sep ps
  end.

(** The code points [str.strip()] removes (those for which
    [str.isspace()] holds). *)
Definition is_space (c : char) : bool :=
  ((9 <=? c) && (c <=? 13)) || ((28 <=? c) && (c <=? 32))
  || (c =? 133) || (c =? 160) || (c =? 5760)
  || ((8192 <=? c) && (c <=? 8202))
  || (c =? 8232) || (c =? 8233) || (c =? 8239) || (c =? 8287)
  || (c =? 12288).

Fixpoint lstrip (s : str) : str :=
  match s with
  | [] => []
  | c :: rest => if is_space c then lstrip rest else s
  end.

Definition rstrip (s : str) : str := rev (lstrip (rev s)).

Definition strip (s : str) : str := rstrip (lstrip s).

(** [s.lower()] on the ASCII letters.  Code points outside ASCII are
    left as they are.  The source only compares the lowered token with
    the seven ASCII literals of its dispatcher, and these comparisons
    come out the same: outside ASCII only the Kelvin sign lowers to
    plain ASCII (to [k], a letter none of the literals has). *)
Definition lower_char (c : char) : char :=
  if (65 <=? c) && (c <=? 90) then c + 32 else c.

Definition lower (s : str) : str := map lower_char s.

(** [str(z)] for an [int]. *)
Definition decimal_text (z : Z) : str :=
  lit (DecimalString.NilZero.string_of_int (Z.to_int z)).

(** *** What the interpreter brings along

    [int] and [repr] consult tables of the interpreter's Unicode
    database and one of its settings; they differ between versions of
    Python and are inputs of the model:
      - [to_decimal c], for a code point [c] outside ASCII: its value
        when it is a decimal digit of some script;
      - [is_printable c], for a code point [c] outside ASCII: whether
        [repr] copies it;
      - [int_max_str_digits]: the limit on the digits of a number in
        text ([sys.get_int_max_str_digits()], 4300 by default where
        there is one; 0 for none), and [int_limit_text], the text of
        the [ValueError] for a number of so many digits. *)
Class Interpreter := {
  to_decimal : char -> option N;
  is_printable : char -> bool;
  int_max_str_digits : Z;
  int_limit_text : Z -> str
}.

Section Builtins.

Context {interpreter : Interpreter}.

(** [int(s)] in base 10, as the interpreter does it.  Outside ASCII a
    whitespace code point counts as a space and a decimal digit as its
    ASCII digit; anything else there is no digit. *)
Definition to_ascii (c : char) : char :=
  if c <? 127 then c
  else if is_space c then 32
  else match to_decimal c with
       | Some d => if d <=? 9 then 48 + d else 63
       | None => 63
       end.

(** The whitespace [int] skips around the number: tab to carriage
    return and the space (not the separators 28 to 31, which [strip]
    does remove). *)
Definition ascii_space (c : char) : bool :=
  ((9 <=? c) && (c <=? 13)) || (c =? 32).

Fixpoint skip_space (s : str) : str :=
  match s with
  | [] => []
  | c :: rest => if ascii_space c then skip_space rest else s
  end.

(** The run of digits and single underscores a text starts with: its
    value, the number of its digits and what follows; [None] when an
    underscore follows an underscore or ends the run. *)
Fixpoint scan (acc count : Z) (after_underscore : bool) (s : str)
  : option (Z * Z * str) :=
  match s with
  | [] => if after_underscore then None else Some (acc, count, [])
  | c :: rest =>
      if c =? 95 then
        (if after_underscore then None else scan acc count true rest)
      else if (48 <=? c) && (c <=? 57) then
        scan (10 * acc + Z.of_N (c - 48))%Z (count + 1)%Z false rest
      else if after_underscore then None
      else Some (acc, count, s)
  end.

Inductive Parsed :=
| Number (z : Z)
| Malformed
| TooLong (digits : Z).

Definition parse_int (s : str) : Parsed :=
  let t := skip_space (map to_ascii s) in
  let (negative, t) :=
    match t with
    | 43 :: r => (false, r)
    | 45 :: r => (true, r)
    | _ => (false, t)
    end in
  match t with
  | 95 :: _ => Malformed
  | _ =>
      match scan 0%Z 0%Z false t with
      | None => Malformed
      | Some (value, count, rest) =>
          if ((640 <? count) && (0 <? int_max_str_digits)
              && (int_max_str_digits <? count))%Z
          then TooLong count
          else if (count =? 0)%Z then Malformed
          else match skip_space rest with
               | [] => Number (if negative then (- value)%Z else value)
               | _ => Malformed
               end
      end
  end.

(** [int(s)]; [None] stands for [ValueError]. *)
Definition int (s : str) : option Z :=
  match parse_int s with
  | Number z => Some z
  | _ => None
  end.

(** [repr(s)]: quotes are single unless the text holds a single quote
    and no double quote; the backslash, the chosen quote, tab, newline
    and carriage return are escaped with a backslash, the other control
    characters of ASCII are written [\xhh], and a code point outside
    ASCII that is not printable is written [\xhh], [\uhhhh] or
    [\Uhhhhhhhh] by its size. *)
Definition hex_digit (n : N) : char :=
  if n <? 10 then 48 + n else 87 + n.

Fixpoint hex (digits : nat) (n : N) : str :=
  match digits with
  | O => []
  | S k => hex k (n / 16) ++ [hex_digit (n mod 16)]
  end.

Definition repr_char (quote : char) (c : char) : str :=
  if (c =? 92) || (c =? quote) then [92; c]
  else if c =? 9 then [92; 116]
  else if c =? 10 then [92; 110]
  else if c =? 13 then [92; 114]
  else if (c <? 32) || (c =? 127) then [92; 120] ++ hex 2 c
  else if c <? 127 then [c]
  else if is_printable c then [c]
  else if c <=? 255 then [92; 120] ++ hex 2 c
  else if c <=? 65535 then [92; 117] ++ hex 4 c
  else [92; 85] ++ hex 8 c.

Definition has_char (c : char) (s : str) : bool := existsb (char_eqb c) s.

Definition repr (s : str) : str :=
  let quote := if has_char 39 s && negb (has_char 34 s) then 34 else 39 in
  [quote] ++ flat_map (repr_char quote) s ++ [quote].

(** The text of the [ValueError] of [int(s)]; the interpreter cuts the
    [repr] after 200 characters. *)
Definition int_error_text (s : str) : str :=
  match parse_int s with
  | TooLong digits => int_limit_text digits
  | _ => lit "invalid literal for int() with base 10: " ++ firstn 200 (repr s)
  end.

End Builtins.

End Py.

(** ** The Temporal interface the source calls

    The workflow hands activities to [workflow.execute_activity] and
    waits for what comes back: the activity's value, or an exception.
    What Temporal and the workers do in between is not code of this
    repository; it is a parameter of the model, a [Substrate], that may
    depend on every call made before.  Every call is taken to come
    back, with a value or with an error; a workflow that is cancelled
    or waits for ever is outside the model. *)

Module Temporal.
Import Py.

(** The activities the worker registers ([main.py]); the constructor is
    the function's name without [_activity]. *)
Inductive ActivityRef :=
| unified_orchestrator
| get_container_status
| check_container_health
| get_container_logs
| restart_container
| get_time
| get_weather
| get_fact.

(** Values passed as activity arguments. *)
Inductive value :=
| VNone
| VStr (s : str)
| VInt (z : Z).

Definition of_option (o : option str) : value :=
  match o with None => VNone | Some s => VStr s end.

(** [temporalio.common.RetryPolicy], the one field the source sets. *)
Record RetryPolicy := { maximum_attempts : Z }.

(** One [workflow.execute_activity(...)] call: the activity, its
    arguments, [start_to_close_timeout] in seconds, and [retry_policy]
    ([None] when the call gives none). *)
Record ActivityCall := {
  activity : ActivityRef;
  args : list value;
  start_to_close_timeout : Z;
  retry_policy : option RetryPolicy
}.

(** How many attempts Temporal makes for a call, as [temporalio]
    documents it: for [RetryPolicy.maximum_attempts], "if 0, the
    default, there is no maximum"; for [execute_activity], a
    [retry_policy] left unset means "a server-defined default is used",
    and one sets "maximum attempts to 1 to disable retries".  The
    server's default policy has no maximum. *)
Inductive AttemptBudget :=
| Unlimited
| AtMost (n : Z).

Definition attempt_budget (rp : option RetryPolicy) : AttemptBudget :=
  match rp with
  | None => Unlimited
  | Some p => if (maximum_attempts p =? 0)%Z then Unlimited
              else AtMost (maximum_attempts p)
  end.

(** [higher a b]: budget [a] allows more attempts than budget [b]. *)
Definition higher (a b : AttemptBudget) : bool :=
  match a, b with
  | _, Unlimited => false
  | Unlimited, AtMost _ => true
  | AtMost n, AtMost m => (m <? n)%Z
  end.

(** What [await workflow.execute_activity(...)] comes back with: the
    activity's return value, or an [ActivityError] with its text. *)
Inductive Outcome :=
| Completed (result : str)
| Failed (message : str).

Definition History := list ActivityCall.

Definition Substrate := History -> ActivityCall -> Outcome.

(** Exceptions (subclasses of [Exception]) raised inside [run]. *)
Inductive Exception :=
| ValueError (msg : str)
| IndexError (msg : str)
| ActivityError (msg : str).

(** [str(e)]. *)
Definition message (e : Exception) : str :=
  match e with
  | ValueError msg | IndexError msg | ActivityError msg => msg
  end.

Inductive Result (A : Type) :=
| Ok (a : A)
| Raise (e : Exception).

Arguments Ok {A} a.
Arguments Raise {A} e.

(** Workflow code: it reads and extends the history of activity calls
    and ends with a value or an exception. *)
Definition Wf (A : Type) := History -> Result A * History.

Definition ret {A} (a : A) : Wf A := fun h => (Ok a, h).

Definition raise {A} (e : Exception) : Wf A := fun h => (Raise e, h).

Definition bind {A B} (m : Wf A) (k : A -> Wf B) : Wf B :=
  fun h =>
    match m h with
    | (Ok a, h') => k a h'
    | (Raise e, h') => (Raise e, h')
    end.

(** [try: body  except Exception as e: handler(e)]. *)
Definition try_except {A} (body : Wf A) (handler : Exception -> Wf A) : Wf A :=
  fun h =>
    match body h with
    | (Ok a, h') => (Ok a, h')
    | (Raise e, h') => handler e h'
    end.

Definition execute_activity (substrate : Substrate) (c : ActivityCall) : Wf str :=
  fun h =>
    match substrate h c with
    | Completed result => (Ok result, h ++ [c])
    | Failed msg => (Raise (ActivityError msg), h ++ [c])
    end.

(** [int(s)], raising [ValueError] as Python words it. *)
Definition int_or_raise {interpreter : Interpreter} (s : str) : Wf Z :=
  match int s with
  | Some z => ret z
  | None => raise (ValueError (int_error_text s))
  end.

(** [l[i]]. *)
Definition item {A} (l : list A) (i : nat) : Wf A :=
  match nth_error l i with
  | Some a => ret a
  | None => raise (IndexError (lit "list index out of range"))
  end.

(** What an activity function does when a worker runs it once. *)
Inductive ActivityException :=
| ApplicationError (msg : str) (non_retryable : bool)
| OtherException (msg : str).

Inductive ActivityResult :=
| Returned (text : str)
| Raised (e : ActivityException).

End Temporal.

Declare Scope wf_scope.
Delimit Scope wf_scope with wf.
Notation "x <- m ;; k" := (Temporal.bind m (fun x => k))
  (at level 61, m at next level, right associativity) : wf_scope.

(** ** [src/src/providers/infra_monitor/docker_temporal_agent.py] *)

Module DockerTemporalAgent.
Import Py Temporal.

(** What [DockerClientWrapper().restart_container(container_name)] does;
    [docker_utils] is not part of the sources, so its behaviour is an
    input of the activity. *)
Inductive DockerRestart :=
| restart_returns (success : bool)
| ContainerNotFoundError (container_name : str)
| DockerConnectionError (msg : str)
| UnexpectedException (msg : str).

Definition check_mark : char := 10003%N.

Definition restart_container_activity
    (docker : DockerRestart) (container_name : str) : ActivityResult :=
  match docker with
  | restart_returns success =>
      if success then
        Returned ([check_mark] ++ lit " Successfully restarted container '"
                    ++ container_name ++ lit "'")
      else
        Returned (lit "Container '" ++ container_name
                    ++ lit "' was restarted but may not be running properly")
  | ContainerNotFoundError name =>
      Raised (ApplicationError (lit "Container '" ++ name ++ lit "' not found") true)
  | DockerConnectionError msg =>
      Raised (OtherException msg)
  | UnexpectedException msg =>
      Raised (ApplicationError (lit "Unexpected error: " ++ msg) true)
  end.

End DockerTemporalAgent.

(** The planner's language model ([strands.Agent]), an input of the
    orchestrator activity: importing and building the agent may raise,
    and so may the call [agent(task)]; otherwise the reply's text
    ([str(result.content ...)]) is what the activity works with. *)

Module Strands.
Import Py.

Inductive Reply :=
| Answered (content : str)
| Errored (msg : str).

Record Agent := {
  construct_error : option str;
  ask : str -> Reply
}.

End Strands.

(** ** [src/unified_agent/workflow.py] *)

Module UnifiedAgent.
Import Py Temporal Strands.
Local Open Scope wf_scope.

Definition unified_orchestrator_activity (agent : Agent) (task : str)
  : ActivityResult :=
  match construct_error agent with
  | Some msg => Raised (OtherException msg)
  | None =>
      match ask agent task with
      | Answered content => Returned (strip content)
      | Errored _ => Returned (lit "status")
      end
  end.

Definition cross_mark : char := 10060%N.

Section Workflow.

Context {interpreter : Interpreter}.
Variable substrate : Substrate.

Definition dispatch (op_spec op_type : str) (param1 param2 : option str)
  : Wf str :=
  if str_eqb op_type (lit "status") then
    execute_activity substrate
      {| activity := get_container_status; args := [of_option param1];
         start_to_close_timeout := 10; retry_policy := None |}
  else if str_eqb op_type (lit "health") then
    execute_activity substrate
      {| activity := check_container_health; args := [of_option param1];
         start_to_close_timeout := 15; retry_policy := None |}
  else if str_eqb op_type (lit "logs") then
    lines <- match param2 with
             | Some p => if truthy p then int_or_raise p else ret 100%Z
             | None => ret 100%Z
             end ;;
    execute_activity substrate
      {| activity := get_container_logs;
         args := [of_option param1; VInt lines];
         start_to_close_timeout := 10; retry_policy := None |}
  else if str_eqb op_type (lit "restart") then
    execute_activity substrate
      {| activity := restart_container; args := [of_option param1];
         start_to_close_timeout := 30;
         retry_policy := Some {| maximum_attempts := 5 |} |}
  else if str_eqb op_type (lit "time") then
    execute_activity substrate
      {| activity := get_time; args := [];
         start_to_close_timeout := 5; retry_policy := None |}
  else if str_eqb op_type (lit "weather") && truthy_opt param1 then
    execute_activity substrate
      {| activity := get_weather; args := [of_option param1];
         start_to_close_timeout := 10; retry_policy := None |}
  else if str_eqb op_type (lit "fact") && truthy_opt param1 then
    execute_activity substrate
      {| activity := get_fact; args := [of_option param1];
         start_to_close_timeout := 20; retry_policy := None |}
  else
    ret (lit "Skipped unknown operation: " ++ op_spec).

(** The body of the [try] of one loop round, up to [results.append]. *)
Definition attempt (op_spec : str) : Wf str :=
  let parts := split colon op_spec in
  p0 <- item parts 0 ;;
  let op_type := lower p0 in
  let param1 := nth_error parts 1 in
  let param2 := nth_error parts 2 in
  dispatch op_spec op_type param1 param2.

Definition failure_entry (op_spec : str) (e : Exception) : str :=
  [cross_mark] ++ lit " Step '" ++ op_spec ++ lit "' failed: " ++ message e.

(** One round of the loop: [results] before, [results] after. *)
Definition step (op_spec : str) (results : list str) : Wf (list str) :=
  try_except
    (result <- attempt op_spec ;;
     ret (results ++ [result]))
    (fun e => ret (results ++ [failure_entry op_spec e])).

Fixpoint for_each (operations : list str) (results : list str)
  : Wf (list str) :=
  match operations with
  | [] => ret results
  | op_spec :: rest =>
      results' <- step op_spec results ;;
      for_each rest results'
  end.

(** [[op.strip() for op in plan.split(',') if op.strip()]]. *)
Definition operations_of (plan : str) : list str :=
  flat_map (fun op => if truthy (strip op) then [strip op] else [])
           (split comma plan).

(** From [results = []] to the end of the loop. *)
Definition execute_plan (plan : str) : Wf (list str) :=
  let results := [] in
  let operations := operations_of plan in
  for_each operations results.

Definition planner_call (task : str) : ActivityCall :=
  {| activity := unified_orchestrator; args := [VStr task];
     start_to_close_timeout := 15;
     retry_policy := Some {| maximum_attempts := 2 |} |}.

Definition run (task : str) : Wf str :=
  plan <- execute_activity substrate (planner_call task) ;;
  results <- execute_plan plan ;;
  ret (join [newline; newline] results).

(** *** What one round contributes

    [entry_of op h] is the text round [op] appends when it starts from
    history [h], [history_after_step op h] the history it leaves;
    [entries] and [history_after] follow a whole list of rounds. *)

Definition entry_of (op_spec : str) (h : History) : str :=
  match attempt op_spec h with
  | (Ok result, _) => result
  | (Raise e, _) => failure_entry op_spec e
  end.

Definition history_after_step (op_spec : str) (h : History) : History :=
  snd (attempt op_spec h).

Fixpoint entries (operations : list str) (h : History) : list str :=
  match operations with
  | [] => []
  | op_spec :: rest =>
      entry_of op_spec h :: entries rest (history_after_step op_spec h)
  end.

Fixpoint history_after (operations : list str) (h : History) : History :=
  match operations with
  | [] => h
  | op_spec :: rest => history_after rest (history_after_step op_spec h)
  end.

End Workflow.

End UnifiedAgent.

(** ** [src/src/unified_agent/workflow.py] *)

Module SrcUnifiedAgent.
Import Py Temporal Strands.
Local Open Scope wf_scope.

Definition unified_orchestrator_activity (agent : Agent) (task : str)
  : ActivityResult :=
  match construct_error agent with
  | Some _ => Returned (lit "status")
  | None =>
      match ask agent task with
      | Answered content => Returned (strip content)
      | Errored _ => Returned (lit "status")
      end
  end.

Definition cross_mark : char := 10060%N.

(** [str(result)] for a result that is a [str] or still [None]. *)
Definition str_of (result : option str) : str :=
  match result with
  | Some s => s
  | None => lit "None"
  end.

Section Workflow.

Context {interpreter : Interpreter}.
Variable substrate : Substrate.

Definition some (m : Wf str) : Wf (option str) :=
  r <- m ;; ret (Some r).

Definition dispatch (op_type : str) (param1 param2 : option str)
  : Wf (option str) :=
  if str_eqb op_type (lit "status") then
    some (execute_activity substrate
      {| activity := get_container_status; args := [of_option param1];
         start_to_close_timeout := 10; retry_policy := None |})
  else if str_eqb op_type (lit "health") then
    some (execute_activity substrate
      {| activity := check_container_health; args := [of_option param1];
         start_to_close_timeout := 15; retry_policy := None |})
  else if str_eqb op_type (lit "logs") then
    lines <- match param2 with
             | Some p => if truthy p then int_or_raise p else ret 100%Z
             | None => ret 100%Z
             end ;;
    some (execute_activity substrate
      {| activity := get_container_logs;
         args := [of_option param1; VInt lines];
         start_to_close_timeout := 10; retry_policy := None |})
  else if str_eqb op_type (lit "restart") then
    some (execute_activity substrate
      {| activity := restart_container; args := [of_option param1];
         start_to_close_timeout := 30; retry_policy := None |})
  else if str_eqb op_type (lit "time") then
    some (execute_activity substrate
      {| activity := get_time; args := [];
         start_to_close_timeout := 5; retry_policy := None |})
  else if str_eqb op_type (lit "weather") && truthy_opt param1 then
    some (execute_activity substrate
      {| activity := get_weather; args := [of_option param1];
         start_to_close_timeout := 10; retry_policy := None |})
  else if str_eqb op_type (lit "fact") && truthy_opt param1 then
    some (execute_activity substrate
      {| activity := get_fact; args := [of_option param1];
         start_to_close_timeout := 20; retry_policy := None |})
  else
    ret None.

Definition attempt (op_spec : str) : Wf (option str) :=
  let parts := split colon op_spec in
  p0 <- item parts 0 ;;
  let op_type := lower p0 in
  let param1 := nth_error parts 1 in
  let param2 := nth_error parts 2 in
  dispatch op_type param1 param2.

Definition failure_entry (op_spec : str) (e : Exception) : str :=
  [cross_mark] ++ lit " Step '" ++ op_spec ++ lit "' failed: " ++ message e.

Definition step (op_spec : str) (results : list str) : Wf (list str) :=
  try_except
    (result <- attempt op_spec ;;
     ret (results ++ [str_of result]))
    (fun e => ret (results ++ [failure_entry op_spec e])).

Fixpoint for_each (operations : list str) (results : list str)
  : Wf (list str) :=
  match operations with
  | [] => ret results
  | op_spec :: rest =>
      results' <- step op_spec results ;;
      for_each rest results'
  end.

Definition operations_of (plan : str) : list str :=
  flat_map (fun op => if truthy (strip op) then [strip op] else [])
           (split comma plan).

Definition execute_plan (plan : str) : Wf (list str) :=
  let results := [] in
  let operations := operations_of plan in
  for_each operations results.

Definition planner_call (task : str) : ActivityCall :=
  {| activity := unified_orchestrator; args := [VStr task];
     start_to_close_timeout := 15;
     retry_policy := Some {| maximum_attempts := 2 |} |}.

Definition run (task : str) : Wf str :=
  plan <- execute_activity substrate (planner_call task) ;;
  results <- execute_plan plan ;;
  ret (join [newline; newline] results).

End Workflow.

End SrcUnifiedAgent.

(** * Notions of the specification and scenarios *)

Module Spec.
Import Py Temporal.

(** The operation tokens of the catalog. *)
Definition catalog : list str :=
  [lit "status"; lit "health"; lit "logs"; lit "restart";
   lit "time"; lit "weather"; lit "fact"].

Definition in_catalog (t : str) : bool := existsb (str_eqb t) catalog.

(** The operation token of a segment and its first parameter: the
    first and the second colon-separated piece. *)
Definition token (op_spec : str) : str := hd [] (split colon op_spec).

Definition first_param (op_spec : str) : option str :=
  nth_error (split colon op_spec) 1.

Definition second_param (op_spec : str) : option str :=
  nth_error (split colon op_spec) 2.

(** A segment is unrecognized when its token, matched without regard to
    case, is not in the catalog, or when it is [weather] or [fact] and
    the parameter these require is absent. *)
Definition unrecognized (op_spec : str) : bool :=
  let t := lower (token op_spec) in
  negb (in_catalog t)
  || ((str_eqb t (lit "weather") || str_eqb t (lit "fact"))
      && negb (truthy_opt (first_param op_spec))).

(** The number of comma-separated segments that are not empty once
    trimmed. *)
Definition segment_count (plan : str) : nat :=
  length (filter truthy (map strip (split comma plan))).

(** A plan text of whitespace and commas only. *)
Definition blank (plan : str) : bool :=
  forallb (fun c => is_space c || char_eqb c comma) plan.

(** The handler of each catalog token. *)
Definition handler_of (t : str) : option ActivityRef :=
  if str_eqb t (lit "status") then Some get_container_status
  else if str_eqb t (lit "health") then Some check_container_health
  else if str_eqb t (lit "logs") then Some get_container_logs
  else if str_eqb t (lit "restart") then Some restart_container
  else if str_eqb t (lit "time") then Some get_time
  else if str_eqb t (lit "weather") then Some get_weather
  else if str_eqb t (lit "fact") then Some get_fact
  else None.

(** The retry policy a step's call carries, by activity: an explicit
    maximum of five attempts for the restart, none for the others. *)
Definition policy_as_dispatched (c : ActivityCall) : Prop :=
  match activity c with
  | restart_container =>
      retry_policy c = Some {| maximum_attempts := 5 |}
      /\ attempt_budget (retry_policy c) = AtMost 5
  | _ =>
      retry_policy c = None
      /\ attempt_budget (retry_policy c) = Unlimited
  end.

(** The outcome of a step: the handler's text, an error, or an
    unrecognized operation; and the entry that stands for it in the
    results of [src/unified_agent/workflow.py]. *)
Inductive StepOutcome :=
| Success (text : str)
| Failure (e : Exception)
| Unknown.

Definition result_of (op_spec : str) (o : StepOutcome) : Result str :=
  match o with
  | Success text => Ok text
  | Failure e => Raise e
  | Unknown => Ok (lit "Skipped unknown operation: " ++ op_spec)
  end.

Definition render (op_spec : str) (o : StepOutcome) : str :=
  match o with
  | Success text => text
  | Failure e => UnifiedAgent.failure_entry op_spec e
  | Unknown => lit "Skipped unknown operation: " ++ op_spec
  end.

End Spec.

Module Scenario.
Import Py Temporal.

(** An interpreter for the scenarios: the limit of 4300 digits with the
    wording of Python 3.12, the decimal digits of the scripts below,
    and, outside ASCII, everything printable but the controls, the
    spaces and separators, the format characters, the surrogates and
    the private use area. *)
Definition digit_blocks : list N :=
  [1632; 1776; 1984; 2406; 2534; 2662; 2790; 2918; 3046; 3174; 3302;
   3430; 3558; 3664; 3792; 3872; 4160; 4240; 6112; 6160; 6470; 6608;
   6784; 6800; 6992; 7088; 7232; 7248; 42528; 43216; 43264; 43472;
   43504; 43600; 44016; 65296; 66720;
   120782; 120792; 120802; 120812; 120822]%N.

Definition sample_decimal (c : char) : option N :=
  match filter (fun b => (b <=? c) && (c <? b + 10))%N digit_blocks with
  | b :: _ => Some (c - b)%N
  | [] => None
  end.

Definition sample_printable (c : char) : bool :=
  negb (((128 <=? c) && (c <=? 160)) || (c =? 173) || is_space c
        || ((8203 <=? c) && (c <=? 8207)) || ((8234 <=? c) && (c <=? 8238))
        || ((8288 <=? c) && (c <=? 8303)) || (c =? 65279)
        || ((55296 <=? c) && (c <=? 63743))
        || ((65520 <=? c) && (c <=? 65535)))%N.

Definition sample_limit_text (digits : Z) : str :=
  lit "Exceeds the limit (4300 digits) for integer string conversion: value has "
  ++ decimal_text digits
  ++ lit " digits; use sys.set_int_max_str_digits() to increase the limit".

#[export] Instance sample_interpreter : Interpreter :=
  {| to_decimal := sample_decimal;
     is_printable := sample_printable;
     int_max_str_digits := 4300;
     int_limit_text := sample_limit_text |}.

(** The status call without filter, and the logs call for a container
    and a number of lines. *)
Definition status_call : ActivityCall :=
  {| activity := get_container_status; args := [VNone];
     start_to_close_timeout := 10; retry_policy := None |}.

Definition restart_call (param1 : option str) (rp : option RetryPolicy)
  : ActivityCall :=
  {| activity := restart_container; args := [of_option param1];
     start_to_close_timeout := 30; retry_policy := rp |}.

Definition logs_call (param1 : option str) (lines : Z) : ActivityCall :=
  {| activity := get_container_logs;
     args := [of_option param1; VInt lines];
     start_to_close_timeout := 10; retry_policy := None |}.

(** Scenario: the plan [restart:cache, health:cache] where the restart
    fails for good and the health check answers. *)
Definition cache_missing : Substrate :=
  fun _ c =>
    match activity c with
    | restart_container => Failed (lit "Container 'cache' not found")
    | check_container_health => Completed (lit "cache: healthy")
    | _ => Completed []
    end.

(** The planner answers with a given plan text; every other activity
    answers too. *)
Definition planner_says (plan : str) : Substrate :=
  fun _ c =>
    match activity c with
    | unified_orchestrator => Completed plan
    | _ => Completed (lit "ok")
    end.

(** Every activity answers. *)
Definition all_ok : Substrate := fun _ _ => Completed (lit "ok").

(** The planner activity fails until Temporal gives up (it times out,
    say); every other activity answers. *)
Definition planner_down : Substrate :=
  fun _ c =>
    match activity c with
    | unified_orchestrator => Failed (lit "Activity task failed")
    | _ => Completed (lit "ok")
    end.

(** A language model that cannot be reached. *)
Definition model_unreachable : Strands.Agent :=
  {| Strands.construct_error := None;
     Strands.ask := fun _ => Strands.Errored (lit "model unreachable") |}.

(** A worker that runs the orchestrator activity of
    [src/unified_agent/workflow.py] with a given language model; the
    container runtime has nothing to show. *)
Definition worker_with (agent : Strands.Agent) : Substrate :=
  fun _ c =>
    match activity c, args c with
    | unified_orchestrator, [VStr task] =>
        match UnifiedAgent.unified_orchestrator_activity agent task with
        | Returned plan => Completed plan
        | Raised _ => Failed (lit "Activity task failed")
        end
    | get_container_status, _ =>
        Completed (lit "No containers found on this system")
    | _, _ => Completed (lit "ok")
    end.

(** A worker that runs the restart activity against a container
    runtime that behaves in a given way. *)
Definition docker_worker (docker : DockerTemporalAgent.DockerRestart)
  : Substrate :=
  fun _ c =>
    match activity c, args c with
    | restart_container, [VStr container_name] =>
        match DockerTemporalAgent.restart_container_activity
                docker container_name with
        | Returned text => Completed text
        | Raised _ => Failed (lit "Activity task failed")
        end
    | _, _ => Completed (lit "ok")
    end.

End Scenario.

(** * The rest of the sources *)

(** ** Numbers in formatted text *)

Module PyFormat.
Import Py.

(** [str(z)] for an [int], as an f-string writes it. *)
Definition str_of_int (z : Z) : str :=
  lit (DecimalString.NilZero.string_of_int (Z.to_int z)).

(** [str(len(l))]. *)
Definition str_of_len {A} (l : list A) : str :=
  str_of_int (Z.of_nat (length l)).

(** An optional text inside an f-string ([None] is written [None]). *)
Definition fmt (o : option str) : str :=
  match o with
  | Some s => s
  | None => lit "None"
  end.

End PyFormat.

(** ** [providers.infra_monitor.docker_utils], as the activities use it

    The module is not among the sources; what its client does is an
    input of the activities: a call gives a value or raises one of the
    module's errors or some other exception.  A container and a health
    report are taken as the data the activities read off them
    ([format_summary()] included). *)

Module DockerUtils.
Import Py.

Inductive DockerError :=
| ContainerNotFound (container_name : str) (text : str)
| Connection (text : str)
| Other (text : str).

(** [str(e)]. *)
Definition text_of (e : DockerError) : str :=
  match e with
  | ContainerNotFound _ text | Connection text | Other text => text
  end.

Inductive Answer (A : Type) :=
| Gives (a : A)
| Throws (e : DockerError).

Arguments Gives {A} a.
Arguments Throws {A} e.

Record Container := {
  name : str;
  summary : str
}.

Record Health := {
  is_healthy : bool;
  health_summary : str
}.

Inductive Filters :=
| by_status (status : str)
| by_name (name : str).

Record DockerClientWrapper := {
  construct : option DockerError;
  get_containers : bool -> option Filters -> Answer (list Container);
  check_container_health : str -> Answer Health;
  get_container_logs : option str -> Z -> Answer str
}.

End DockerUtils.

(** ** The other activities of [docker_temporal_agent.py] *)

Module DockerActivities.
Import Py Temporal PyFormat DockerUtils.

(** The [except] clauses of the health and the logs activity. *)
Definition on_error (e : DockerError) : ActivityResult :=
  match e with
  | ContainerNotFound container_name _ =>
      Raised (ApplicationError
                (lit "Container '" ++ container_name ++ lit "' not found") true)
  | Connection text => Raised (OtherException text)
  | Other text =>
      Raised (ApplicationError (lit "Unexpected error: " ++ text) true)
  end.

(** The [except] clauses of the status activity, which has none for a
    missing container. *)
Definition on_status_error (e : DockerError) : ActivityResult :=
  match e with
  | Connection text => Raised (OtherException text)
  | _ => Raised (ApplicationError (lit "Unexpected error: " ++ text_of e) true)
  end.

Definition status_words : list str :=
  [lit "running"; lit "stopped"; lit "paused"; lit "exited"; lit "restarting"].

Definition filters_of (filter_by : option str) : option Filters :=
  match filter_by with
  | Some f =>
      if truthy f then
        if existsb (str_eqb (lower f)) status_words
        then Some (by_status (lower f))
        else Some (by_name f)
      else None
  | None => None
  end.

Definition get_container_status_activity
    (docker_client : DockerClientWrapper) (filter_by : option str)
  : ActivityResult :=
  match construct docker_client with
  | Some e => on_status_error e
  | None =>
      match get_containers docker_client true (filters_of filter_by) with
      | Throws e => on_status_error e
      | Gives [] =>
          if truthy_opt filter_by
          then Returned (lit "No containers found matching '"
                           ++ fmt filter_by ++ lit "'")
          else Returned (lit "No containers found on this system")
      | Gives containers =>
          let result :=
            [lit "Found " ++ str_of_len containers
               ++ lit " container(s):" ++ [newline]]
            ++ flat_map (fun container => [summary container; []]) containers in
          Returned (join [newline] result)
      end
  end.

Definition ballot_x : char := 10007%N.

(** One round of the loop over the running containers: the lines so
    far and the count of healthy containers, before and after. *)
Definition check_one (docker_client : DockerClientWrapper)
    (state : list str * nat) (container : Container) : list str * nat :=
  let (results, healthy_count) := state in
  match check_container_health docker_client (name container) with
  | Gives health =>
      (results ++ [health_summary health] ++ [[]],
       if is_healthy health then S healthy_count else healthy_count)
  | Throws e =>
      (results ++ [[ballot_x] ++ lit " " ++ name container
                     ++ lit ": Error checking health - " ++ text_of e]
               ++ [[]],
       healthy_count)
  end.

Definition check_container_health_activity
    (docker_client : DockerClientWrapper) (container_name : option str)
  : ActivityResult :=
  match construct docker_client with
  | Some e => on_error e
  | None =>
      match container_name with
      | Some (c :: n) =>
          match check_container_health docker_client (c :: n) with
          | Gives health => Returned (health_summary health)
          | Throws e => on_error e
          end
      | _ =>
          match get_containers docker_client false None with
          | Throws e => on_error e
          | Gives [] => Returned (lit "No running containers found")
          | Gives containers =>
              let results :=
                [lit "Health check for " ++ str_of_len containers
                   ++ lit " running container(s):" ++ [newline]] in
              let (results', healthy_count) :=
                fold_left (check_one docker_client) containers (results, 0) in
              let results'' :=
                results' ++
                [lit "Summary: " ++ str_of_int (Z.of_nat healthy_count)
                   ++ lit "/" ++ str_of_len containers
                   ++ lit " containers healthy"] in
              Returned (join [newline] results'')
          end
      end
  end.

Definition get_container_logs_activity
    (docker_client : DockerClientWrapper)
    (container_name : option str) (lines : Z) : ActivityResult :=
  match construct docker_client with
  | Some e => on_error e
  | None =>
      match get_container_logs docker_client container_name lines with
      | Throws e => on_error e
      | Gives logs =>
          if truthy logs then
            Returned (lit "Last " ++ str_of_int lines
                        ++ lit " lines from container '"
                        ++ fmt container_name ++ lit "':" ++ [newline]
                        ++ repeat 61%N 60 ++ [newline]
                        ++ logs)
          else
            Returned (lit "No logs found for container '"
                        ++ fmt container_name ++ lit "'")
      end
  end.

End DockerActivities.

(** ** [src/client.py] *)

Module Client.
Import Py Temporal.

(** One [client.execute_workflow(UnifiedAgentWorkflow.run, task,
    id=run_id, task_queue=...)]. *)
Record WorkflowStart := {
  task : str;
  id : str;
  task_queue : str
}.

(** What [main] does that can be seen from outside, in order. *)
Inductive Event :=
| Print (text : str)
| Prompt (text : str)
| Start (w : WorkflowStart).

(** How [main] ends: with [break], or with an exception nobody
    catches. *)
Inductive Exit :=
| Quit
| EOFError
| ConnectError (msg : str)
| WorkflowFailure (msg : str).

Section Main.

(** The connection, the workflow service and the successive values of
    [uuid.uuid4()] (as text) are inputs. *)
Variable connect_error : option str.
Variable execute_workflow : WorkflowStart -> Outcome.
Variable uuid4 : nat -> str.

Definition prompt : str := [newline] ++ lit "Agent Task (or 'q' to quit): ".

(** The [while True] loop; [inputs] are the lines standard input still
    holds, [n] counts the identifiers drawn. *)
Fixpoint loop (inputs : list str) (n : nat) (events : list Event)
  : Exit * list Event :=
  match inputs with
  | [] => (EOFError, events ++ [Prompt prompt])
  | line :: rest =>
      let events := events ++ [Prompt prompt] in
      let task := strip line in
      if str_eqb (lower task) (lit "q") then (Quit, events)
      else if negb (truthy task) then loop rest n events
      else
        let run_id := lit "unified-" ++ uuid4 n in
        let events :=
          events ++ [Print (lit "Executing workflow " ++ run_id ++ lit "...")] in
        let w := {| task := task; id := run_id;
                    task_queue := lit "unified-agent-queue" |} in
        let events := events ++ [Start w] in
        match execute_workflow w with
        | Failed msg => (WorkflowFailure msg, events)
        | Completed result =>
            loop rest (S n)
              (events ++ [Print ([newline] ++ lit "--- AGENT REPORT ---");
                          Print result;
                          Print (lit "--------------------")])
        end
  end.

Definition main (inputs : list str) : Exit * list Event :=
  let events :=
    [Print (repeat 61%N 50);
     Print (lit "Unified Super Agent Client");
     Print (lit "Capabilities: Docker Ops + Weather + Facts + Time");
     Print (repeat 61%N 50)] in
  match connect_error with
  | Some msg => (ConnectError msg, events)
  | None => loop inputs 0 events
  end.

End Main.

End Client.

(** ** Views used to state properties *)

Module View.
Import Py Temporal.

(** No whitespace at either end. *)
Definition trimmed (s : str) : Prop :=
  lstrip s = s /\ lstrip (rev s) = rev s.

(** What the dispatcher of [src/unified_agent/workflow.py] settles
    before anything is called: the call to make, the error to raise,
    or that the operation is unknown. *)
Inductive Decision :=
| Invoke (c : ActivityCall)
| Reject (e : Exception)
| Skip.

Definition call (a : ActivityRef) (args : list value) (timeout : Z)
    (rp : option RetryPolicy) : ActivityCall :=
  {| activity := a; args := args; start_to_close_timeout := timeout;
     retry_policy := rp |}.

Section Decide.

Context {interpreter : Interpreter}.

Definition decide (op_type : str) (param1 param2 : option str) : Decision :=
  if str_eqb op_type (lit "status") then
    Invoke (call get_container_status [of_option param1] 10 None)
  else if str_eqb op_type (lit "health") then
    Invoke (call check_container_health [of_option param1] 15 None)
  else if str_eqb op_type (lit "logs") then
    match param2 with
    | Some (c :: p) =>
        match int (c :: p) with
        | Some lines =>
            Invoke (call get_container_logs [of_option param1; VInt lines] 10 None)
        | None => Reject (ValueError (int_error_text (c :: p)))
        end
    | _ => Invoke (call get_container_logs [of_option param1; VInt 100] 10 None)
    end
  else if str_eqb op_type (lit "restart") then
    Invoke (call restart_container [of_option param1] 30
              (Some {| maximum_attempts := 5 |}))
  else if str_eqb op_type (lit "time") then
    Invoke (call get_time [] 5 None)
  else if str_eqb op_type (lit "weather") && truthy_opt param1 then
    Invoke (call get_weather [of_option param1] 10 None)
  else if str_eqb op_type (lit "fact") && truthy_opt param1 then
    Invoke (call get_fact [of_option param1] 20 None)
  else Skip.

(** The decision for a segment, the call a segment leads to (if any),
    and the calls a plan text leads to. *)
Definition decision_of (op_spec : str) : Decision :=
  decide (lower (Spec.token op_spec))
         (Spec.first_param op_spec) (Spec.second_param op_spec).

Definition calls_of (op_spec : str) : list ActivityCall :=
  match decision_of op_spec with
  | Invoke c => [c]
  | _ => []
  end.

Definition planned_calls (plan : str) : list ActivityCall :=
  flat_map calls_of (UnifiedAgent.operations_of plan).

End Decide.

(** A segment both workflows treat alike: its operation is recognized
    and is not the restart. *)
Definition plain (op_spec : str) : bool :=
  negb (Spec.unrecognized op_spec)
  && negb (str_eqb (lower (Spec.token op_spec)) (lit "restart")).

(** The same call without its retry policy. *)
Definition no_policy (c : ActivityCall) : ActivityCall :=
  call (activity c) (args c) (start_to_close_timeout c) None.

(** The timeout, in seconds, each activity is called with. *)
Definition timeout_of (a : ActivityRef) : Z :=
  match a with
  | unified_orchestrator => 15
  | get_container_status => 10
  | check_container_health => 15
  | get_container_logs => 10
  | restart_container => 30
  | get_time => 5
  | get_weather => 10
  | get_fact => 20
  end.

(** A line that makes the client stop, and the tasks a list of input
    lines asks for: the trimmed lines that are not empty, up to the
    first line that makes the client stop. *)
Definition quits (line : str) : bool := str_eqb (lower (strip line)) (lit "q").

Fixpoint requested (inputs : list str) : list str :=
  match inputs with
  | [] => []
  | line :: rest =>
      if quits line then []
      else if truthy (strip line) then strip line :: requested rest
      else requested rest
  end.

(** The workflow starts that a list of tasks leads to when the next
    identifier to draw is the [n]-th. *)
Fixpoint starts_from (uuid4 : nat -> str) (n : nat) (tasks : list str)
  : list Client.WorkflowStart :=
  match tasks with
  | [] => []
  | t :: rest =>
      {| Client.task := t; Client.id := lit "unified-" ++ uuid4 n;
         Client.task_queue := lit "unified-agent-queue" |}
      :: starts_from uuid4 (S n) rest
  end.

(** A container whose health check answers and says healthy. *)
Definition healthy (docker_client : DockerUtils.DockerClientWrapper)
    (container : DockerUtils.Container) : bool :=
  match DockerUtils.check_container_health docker_client
          (DockerUtils.name container) with
  | DockerUtils.Gives health => DockerUtils.is_healthy health
  | DockerUtils.Throws _ => false
  end.

(** The workflows a run of the client started, in order. *)
Fixpoint started (events : list Client.Event) : list Client.WorkflowStart :=
  match events with
  | [] => []
  | Client.Start w :: rest => w :: started rest
  | _ :: rest => started rest
  end.

(** The texts the client printed, in order. *)
Fixpoint printed (events : list Client.Event) : list str :=
  match events with
  | [] => []
  | Client.Print text :: rest => text :: printed rest
  | _ :: rest => printed rest
  end.

(** What the client prints first, and what it prints for a workflow
    that completes with a report. *)
Definition banner : list str :=
  [repeat 61%N 50;
   lit "Unified Super Agent Client";
   lit "Capabilities: Docker Ops + Weather + Facts + Time";
   repeat 61%N 50].

Definition report_lines (report : str) (w : Client.WorkflowStart) : list str :=
  [lit "Executing workflow " ++ Client.id w ++ lit "...";
   [newline] ++ lit "--- AGENT REPORT ---";
   report;
   lit "--------------------"].

End View.

(** ** Further scenarios *)

Module Fixture.
Import Py Temporal PyFormat DockerUtils.

(** The container runtime cannot be reached. *)
Definition daemon_down : DockerClientWrapper :=
  {| construct := Some (Connection (lit "daemon not reachable"));
     get_containers := fun _ _ => Gives [];
     check_container_health := fun _ => Throws (Other []);
     get_container_logs := fun _ _ => Gives [] |}.

(** Two running containers; the check of the second one times out. *)
Definition two_containers : DockerClientWrapper :=
  {| construct := None;
     get_containers := fun _ _ =>
       Gives [ {| name := lit "web"; summary := lit "web: running" |};
               {| name := lit "db"; summary := lit "db: running" |} ];
     check_container_health := fun n =>
       if str_eqb n (lit "web")
       then Gives {| is_healthy := true; health_summary := lit "web: healthy" |}
       else Throws (Connection (lit "timed out"));
     get_container_logs := fun _ _ => Gives [] |}.

(** A language model that answers every task with the same text. *)
Definition model_answers (content : str) : Strands.Agent :=
  {| Strands.construct_error := None;
     Strands.ask := fun _ => Strands.Answered content |}.

(** A workflow service that answers every task with the task, and
    identifiers that count up. *)
Definition echo : Client.WorkflowStart -> Outcome :=
  fun w => Completed (Client.task w).

Definition counting : nat -> str := fun n => str_of_int (Z.of_nat n).

End Fixture.

(** * Properties *)

Import Py Temporal Spec Scenario.

(** ** Strings *)

Lemma char_eqb_eq (a b : char) : char_eqb a b = true <-> a = b.
Proof. apply N.eqb_eq. Qed.

Lemma str_eqb_eq (a b : str) : str_eqb a b = true <-> a = b.
Proof.
  revert b; induction a as [|x a IH]; intros [|y b]; simpl;
    try (split; [discriminate | congruence]); try tauto.
  rewrite andb_true_iff, char_eqb_eq, IH.
  split; [intros [-> ->]; reflexivity | intros E; inversion E; auto].
Qed.

Lemma split_cons (sep : char) (s : str) :
  exists p ps, split sep s = p :: ps.
Proof.
  induction s as [|c s (p & ps & E)]; simpl.
  - eauto.
  - destruct (char_eqb c sep); [eauto | rewrite E; eauto].
Qed.

Lemma join_split (sep : char) (s : str) : join [sep] (split sep s) = s.
Proof.
  induction s as [|c s IH]; simpl; [reflexivity|].
  destruct (split_cons sep s) as (p & ps & E).
  rewrite E in IH |- *.
  destruct (char_eqb c sep) eqn:Ec.
  - apply char_eqb_eq in Ec; subst c. simpl in IH |- *. now rewrite IH.
  - destruct ps; simpl in IH |- *; now rewrite IH.
Qed.

(** Splitting undoes joining when no piece holds the separator. *)
Lemma split_no_sep (sep : char) (p : str) :
  ~ In sep p -> split sep p = [p].
Proof.
  induction p as [|c p IH]; simpl; intros N; [reflexivity|].
  destruct (char_eqb c sep) eqn:E.
  - apply char_eqb_eq in E. subst c. exfalso. apply N. now left.
  - rewrite IH; [reflexivity|]. intros H. apply N. now right.
Qed.

Lemma split_app_sep (sep : char) (p rest : str) :
  ~ In sep p -> split sep (p ++ sep :: rest) = p :: split sep rest.
Proof.
  induction p as [|c p IH]; simpl; intros N.
  - now rewrite (proj2 (char_eqb_eq sep sep) eq_refl).
  - destruct (char_eqb c sep) eqn:E.
    + apply char_eqb_eq in E. subst c. exfalso. apply N. now left.
    + rewrite IH; [reflexivity|]. intros H. apply N. now right.
Qed.

Lemma split_join (sep : char) (p : str) (ps : list str) :
  Forall (fun q => ~ In sep q) (p :: ps) ->
  split sep (join [sep] (p :: ps)) = p :: ps.
Proof.
  revert p. induction ps as [|q ps IH]; intros p F.
  - simpl. apply split_no_sep. now inversion F.
  - inversion F as [|? ? Hp Hrest]; subst.
    change (join [sep] (p :: q :: ps)) with (p ++ sep :: join [sep] (q :: ps)).
    rewrite split_app_sep by exact Hp. now rewrite IH.
Qed.

(** The pieces of a split hold characters of the text, the separator
    excepted. *)
Lemma split_pieces (sep : char) (s : str) :
  forall piece c,
    In piece (split sep s) -> In c piece -> In c s /\ c <> sep.
Proof.
  induction s as [|d s IH]; simpl; intros piece c Hp Hc.
  - destruct Hp as [<-|[]]. destruct Hc.
  - destruct (char_eqb d sep) eqn:Ed.
    + destruct Hp as [<-|Hp]; [destruct Hc|].
      destruct (IH piece c Hp Hc). auto.
    + destruct (split_cons sep s) as (p & ps & E). rewrite E in *.
      destruct Hp as [<-|Hp].
      * destruct Hc as [<-|Hc].
        -- split; [auto|]. intros ->.
           now rewrite (proj2 (char_eqb_eq sep sep) eq_refl) in Ed.
        -- destruct (IH p c (or_introl eq_refl) Hc). auto.
      * destruct (IH piece c (or_intror Hp) Hc). auto.
Qed.

(** The first piece of a split starts the text. *)
Lemma split_head_prefix (sep : char) (s p : str) (ps : list str) :
  split sep s = p :: ps -> exists rest, s = p ++ rest.
Proof.
  intros E. rewrite <- (join_split sep s), E.
  destruct ps; simpl; [exists []; now rewrite app_nil_r | eauto].
Qed.

(** ** The loop of [src/unified_agent/workflow.py] *)

Section Loop.

Import UnifiedAgent.

Context {interpreter : Interpreter}.
Variable substrate : Substrate.

Lemma step_spec (op_spec : str) (results : list str) (h : History) :
  step substrate op_spec results h
  = (Ok (results ++ [entry_of substrate op_spec h]),
     history_after_step substrate op_spec h).
Proof.
  unfold step, try_except, bind, ret, entry_of, history_after_step.
  destruct (attempt substrate op_spec h) as [[result|e] h']; reflexivity.
Qed.

Lemma for_each_spec (operations : list str) :
  forall results h,
    for_each substrate operations results h
    = (Ok (results ++ entries substrate operations h),
       history_after substrate operations h).
Proof.
  induction operations as [|op_spec rest IH]; intros results h; simpl.
  - unfold ret. now rewrite app_nil_r.
  - unfold bind. rewrite step_spec, IH, <- app_assoc. reflexivity.
Qed.

Lemma entries_length (operations : list str) :
  forall h, length (entries substrate operations h) = length operations.
Proof.
  induction operations as [|op_spec rest IH]; intros h; simpl; auto.
Qed.

Lemma entries_nth (operations : list str) :
  forall i h,
    nth_error (entries substrate operations h) i
    = option_map
        (fun op_spec =>
           entry_of substrate op_spec
             (history_after substrate (firstn i operations) h))
        (nth_error operations i).
Proof.
  induction operations as [|op_spec rest IH]; intros [|i] h; simpl; auto.
Qed.

Lemma execute_plan_spec (plan : str) (h : History) :
  execute_plan substrate plan h
  = (Ok (entries substrate (operations_of plan) h),
     history_after substrate (operations_of plan) h).
Proof. unfold execute_plan. now rewrite for_each_spec. Qed.

Lemma run_spec (task : str) (h : History) :
  run substrate task h
  = match substrate h (planner_call task) with
    | Completed plan =>
        let h1 := h ++ [planner_call task] in
        (Ok (join [newline; newline]
               (entries substrate (operations_of plan) h1)),
         history_after substrate (operations_of plan) h1)
    | Failed msg =>
        (Raise (ActivityError msg), h ++ [planner_call task])
    end.
Proof.
  unfold run, bind, execute_activity.
  destruct (substrate h (planner_call task)); [|reflexivity].
  now rewrite execute_plan_spec.
Qed.

End Loop.

(** ** Results follow the plan *)

Lemma operations_of_filter (plan : str) :
  UnifiedAgent.operations_of plan
  = map strip (filter (fun op => truthy (strip op)) (split comma plan)).
Proof.
  unfold UnifiedAgent.operations_of.
  induction (split comma plan) as [|op l IH]; simpl; [reflexivity|].
  destruct (truthy (strip op)); simpl; now rewrite IH.
Qed.

Section Results.

Import UnifiedAgent.

Context {interpreter : Interpreter}.
Variable substrate : Substrate.

(** C1.  Whatever plan text the planner comes back with, the loop ends
    with one result per parsed operation, none dropped and none moved:
    the results are as many as the operations, the i-th result is the
    entry of the round of the i-th operation (run after the rounds
    before it), the operations are the trimmed non-blank
    comma-separated pieces of the plan text in the order in which they
    stand there, and the report of the run is these results joined. *)
Theorem results_follow_plan (task plan : str) (h : History) :
  substrate h (planner_call task) = Completed plan ->
  let operations := operations_of plan in
  let h1 := h ++ [planner_call task] in
  exists results,
    execute_plan substrate plan h1
    = (Ok results, history_after substrate operations h1)
    /\ run substrate task h
       = (Ok (join [newline; newline] results),
          history_after substrate operations h1)
    /\ length results = length operations
    /\ (forall i,
          nth_error results i
          = option_map
              (fun op_spec =>
                 entry_of substrate op_spec
                   (history_after substrate (firstn i operations) h1))
              (nth_error operations i))
    /\ join [comma] (split comma plan) = plan
    /\ operations
       = map strip (filter (fun op => truthy (strip op)) (split comma plan)).
Proof.
  intros Hp operations h1.
  exists (entries substrate operations h1).
  split; [apply execute_plan_spec|].
  split; [now rewrite run_spec, Hp|].
  split; [apply entries_length|].
  split; [intros i; apply entries_nth|].
  split; [apply join_split | apply operations_of_filter].
Qed.

(** C2.  When the body of a round raises, the round itself does not:
    it appends the failure entry, which holds the text of the step and
    the text of the error, and the loop goes on to run every remaining
    step and ends normally. *)
Theorem step_error_is_caught
    (op_spec : str) (e : Exception) (h h1 : History)
    (rest : list str) (results : list str) :
  attempt substrate op_spec h = (Raise e, h1) ->
  step substrate op_spec results h
  = (Ok (results ++ [failure_entry op_spec e]), h1)
  /\ for_each substrate (op_spec :: rest) results h
     = (Ok (results ++ failure_entry op_spec e :: entries substrate rest h1),
        history_after substrate rest h1)
  /\ length (entries substrate rest h1) = length rest
  /\ exists a b, failure_entry op_spec e = a ++ op_spec ++ b ++ message e.
Proof.
  intros E.
  assert (Hentry : entry_of substrate op_spec h = failure_entry op_spec e)
    by (unfold entry_of; now rewrite E).
  assert (Hhist : history_after_step substrate op_spec h = h1)
    by (unfold history_after_step; now rewrite E).
  split; [now rewrite step_spec, Hentry, Hhist|].
  split; [rewrite for_each_spec; simpl; now rewrite Hentry, Hhist|].
  split; [apply entries_length|].
  exists ([cross_mark] ++ lit " Step '"), (lit "' failed: ").
  unfold failure_entry. now rewrite <- !app_assoc.
Qed.

End Results.

Lemma results_follow_plan_witness :
  exists results,
    UnifiedAgent.run (planner_says (lit "time, weather:London, ,logs"))
      (lit "time and weather") []
    = (Ok (join [newline; newline] results),
       [ UnifiedAgent.planner_call (lit "time and weather");
         {| activity := get_time; args := [];
            start_to_close_timeout := 5; retry_policy := None |};
         {| activity := get_weather; args := [VStr (lit "London")];
            start_to_close_timeout := 10; retry_policy := None |};
         logs_call None 100 ])
    /\ length results = 3.
Proof.
  destruct (results_follow_plan
              (planner_says (lit "time, weather:London, ,logs"))
              (lit "time and weather") [] eq_refl)
    as (results & _ & Hrun & Hlen & _).
  exists results. split; [exact Hrun | exact Hlen].
Defined.

Lemma step_error_is_caught_witness :
  UnifiedAgent.attempt cache_missing (lit "restart:cache") []
  = (Raise (ActivityError (lit "Container 'cache' not found")),
     [ {| activity := restart_container; args := [VStr (lit "cache")];
          start_to_close_timeout := 30;
          retry_policy := Some {| maximum_attempts := 5 |} |} ])
  /\ UnifiedAgent.for_each cache_missing
       (UnifiedAgent.operations_of (lit "restart:cache, health:cache")) [] []
     = (Ok [ [UnifiedAgent.cross_mark]
               ++ lit " Step 'restart:cache' failed: Container 'cache' not found";
             lit "cache: healthy" ],
        [ {| activity := restart_container; args := [VStr (lit "cache")];
             start_to_close_timeout := 30;
             retry_policy := Some {| maximum_attempts := 5 |} |};
          {| activity := check_container_health; args := [VStr (lit "cache")];
             start_to_close_timeout := 15; retry_policy := None |} ]).
Proof.
  assert (E : UnifiedAgent.attempt cache_missing (lit "restart:cache") []
    = (Raise (ActivityError (lit "Container 'cache' not found")),
       [ {| activity := restart_container; args := [VStr (lit "cache")];
            start_to_close_timeout := 30;
            retry_policy := Some {| maximum_attempts := 5 |} |} ]))
    by reflexivity.
  split; [exact E|].
  change (UnifiedAgent.operations_of (lit "restart:cache, health:cache"))
    with [lit "restart:cache"; lit "health:cache"].
  destruct (step_error_is_caught cache_missing (lit "restart:cache")
              [] [lit "health:cache"] [] E) as (_ & Hloop & _).
  rewrite Hloop. reflexivity.
Defined.

(** ** Unrecognized operations *)

Section Unrecognized.

Import UnifiedAgent.

Context {interpreter : Interpreter}.
Variable substrate : Substrate.

Lemma attempt_unrecognized (op_spec : str) (h : History) :
  unrecognized op_spec = true ->
  attempt substrate op_spec h
  = (Ok (lit "Skipped unknown operation: " ++ op_spec), h).
Proof.
  unfold unrecognized, token, first_param, in_catalog, catalog, attempt.
  destruct (split_cons colon op_spec) as (p & ps & ->).
  cbn [hd existsb item nth_error]. unfold bind at 1. cbn [ret].
  unfold dispatch.
  repeat match goal with
  | |- context [if str_eqb (lower p) ?l then _ else _] =>
      destruct (str_eqb (lower p) l) eqn:E;
      [apply str_eqb_eq in E; rewrite E; cbn; discriminate | clear E]
  end.
  destruct (str_eqb (lower p) (lit "weather")) eqn:Ew.
  - apply str_eqb_eq in Ew; rewrite Ew.
    destruct ps as [|[|c p1] ps]; cbn; try discriminate; reflexivity.
  - destruct (str_eqb (lower p) (lit "fact"));
      destruct ps as [|[|c p1] ps]; cbn; try discriminate; reflexivity.
Qed.

(** C3.  A segment whose token, lowered, is none of the seven catalog
    tokens, or is [weather] or [fact] without its parameter, calls no
    activity (the history stays as it was); its round appends the entry
    [Skipped unknown operation: <segment>], which spells out the token
    the segment starts with, and the loop goes on with the next step. *)
Theorem unknown_operation_skipped
    (op_spec : str) (results : list str) (h : History) (rest : list str) :
  unrecognized op_spec = true ->
  step substrate op_spec results h
  = (Ok (results ++ [lit "Skipped unknown operation: " ++ op_spec]), h)
  /\ (exists tail, op_spec = token op_spec ++ tail)
  /\ for_each substrate (op_spec :: rest) results h
     = for_each substrate rest
         (results ++ [lit "Skipped unknown operation: " ++ op_spec]) h.
Proof.
  intros U.
  pose proof (attempt_unrecognized op_spec h U) as E.
  assert (S : step substrate op_spec results h
    = (Ok (results ++ [lit "Skipped unknown operation: " ++ op_spec]), h)).
  { rewrite step_spec. unfold entry_of, history_after_step. now rewrite E. }
  split; [exact S|]. split.
  - unfold token. destruct (split_cons colon op_spec) as (p & ps & Ep).
    rewrite Ep. simpl. eapply split_head_prefix; eauto.
  - simpl. unfold bind at 1. now rewrite S.
Qed.

End Unrecognized.

Lemma unknown_operation_skipped_witness :
  unrecognized (lit "Reboot:db") = true
  /\ unrecognized (lit "weather") = true
  /\ UnifiedAgent.step cache_missing (lit "Reboot:db") [] []
     = (Ok [lit "Skipped unknown operation: Reboot:db"], [])
  /\ UnifiedAgent.step cache_missing (lit "weather") [] []
     = (Ok [lit "Skipped unknown operation: weather"], []).
Proof.
  split; [reflexivity|]. split; [reflexivity|]. split.
  - apply (unknown_operation_skipped cache_missing (lit "Reboot:db") [] [] []).
    reflexivity.
  - apply (unknown_operation_skipped cache_missing (lit "weather") [] [] []).
    reflexivity.
Defined.

(** ** The planner step *)

(** When the language model cannot even be set up, the orchestrator of
    [src/unified_agent/workflow.py] raises (its [try] starts later),
    the one of [src/src/unified_agent/workflow.py] returns [status]. *)
Lemma orchestrator_setup_failure (msg task : str) (ask : str -> Strands.Reply) :
  let agent := {| Strands.construct_error := Some msg; Strands.ask := ask |} in
  UnifiedAgent.unified_orchestrator_activity agent task
  = Raised (OtherException msg)
  /\ SrcUnifiedAgent.unified_orchestrator_activity agent task
     = Returned (lit "status").
Proof. split; reflexivity. Qed.

(** C4, as stated, fails: when the planner activity itself fails, [run]
    has no handler around the call; no fallback plan is substituted, no
    step runs, and the error reaches the caller. *)
Lemma planner_failure_reaches_caller :
  planner_down [] (UnifiedAgent.planner_call (lit "restart nginx"))
  = Failed (lit "Activity task failed")
  /\ UnifiedAgent.run planner_down (lit "restart nginx") []
     = (Raise (ActivityError (lit "Activity task failed")),
        [UnifiedAgent.planner_call (lit "restart nginx")])
  /\ ~ (exists report h,
          UnifiedAgent.run planner_down (lit "restart nginx") []
          = (Ok report, h)).
Proof.
  split; [reflexivity|]. split; [reflexivity|].
  intros (report & h & E). vm_compute in E. discriminate E.
Qed.

Section Planner.

Import UnifiedAgent Strands.

Context {interpreter : Interpreter}.
Variable substrate : Substrate.

(** C4, amended.  The fallback lives inside the orchestrator activity:
    when the call of the language model raises there, the activity
    returns the plan text [status].  Whenever the planner activity
    comes back with a plan, [run] ends with a report; with the plan
    [status] it makes the one status call, without filter, and reports
    its entry.  When the planner activity itself fails after its two
    attempts, [run] raises that error and runs no step. *)
Theorem planner_fallback_inside_activity (task : str) (h : History) :
  (forall agent msg,
      construct_error agent = None ->
      ask agent task = Errored msg ->
      unified_orchestrator_activity agent task = Returned (lit "status"))
  /\ retry_policy (planner_call task) = Some {| maximum_attempts := 2 |}
  /\ (forall plan,
        substrate h (planner_call task) = Completed plan ->
        exists report h', run substrate task h = (Ok report, h'))
  /\ (substrate h (planner_call task) = Completed (lit "status") ->
      run substrate task h
      = (Ok (entry_of substrate (lit "status") (h ++ [planner_call task])),
         h ++ [planner_call task] ++ [status_call]))
  /\ (forall msg,
        substrate h (planner_call task) = Failed msg ->
        run substrate task h
        = (Raise (ActivityError msg), h ++ [planner_call task])).
Proof.
  split.
  { intros agent msg Hc Ha. unfold unified_orchestrator_activity.
    now rewrite Hc, Ha. }
  split; [reflexivity|].
  split.
  { intros plan E. rewrite run_spec, E. eauto. }
  split.
  { intros E. rewrite run_spec, E.
    change (operations_of (lit "status")) with [lit "status"].
    cbn [entries history_after join]. f_equal.
    unfold history_after_step, attempt, dispatch, bind, execute_activity.
    change (split colon (lit "status")) with [lit "status"].
    cbn [item nth_error ret].
    change (str_eqb (lower (lit "status")) (lit "status")) with true.
    cbv iota. cbn [of_option].
    fold status_call.
    destruct (substrate (h ++ [planner_call task]) status_call);
      simpl; now rewrite <- app_assoc. }
  intros msg E. now rewrite run_spec, E.
Qed.

End Planner.

Lemma planner_fallback_inside_activity_witness :
  UnifiedAgent.unified_orchestrator_activity model_unreachable
    (lit "restart nginx") = Returned (lit "status")
  /\ UnifiedAgent.run (worker_with model_unreachable) (lit "restart nginx") []
     = (Ok (lit "No containers found on this system"),
        [UnifiedAgent.planner_call (lit "restart nginx"); status_call])
  /\ UnifiedAgent.run planner_down (lit "restart nginx") []
     = (Raise (ActivityError (lit "Activity task failed")),
        [UnifiedAgent.planner_call (lit "restart nginx")]).
Proof.
  destruct (planner_fallback_inside_activity
              (worker_with model_unreachable) (lit "restart nginx") [])
    as (Hact & _ & _ & Hstatus & _).
  destruct (planner_fallback_inside_activity
              planner_down (lit "restart nginx") [])
    as (_ & _ & _ & _ & Hfail).
  split; [apply (Hact model_unreachable (lit "model unreachable")); reflexivity|].
  split; [rewrite Hstatus; reflexivity|].
  apply Hfail. reflexivity.
Defined.

(** ** The line count of a logs step *)

(** C5, as stated, fails: a line count that is no number does not fall
    back to 100.  [int] raises, the round records the failure, and the
    logs activity is not called at all. *)
Lemma invalid_line_count_fails_step :
  int (lit "abc") = None
  /\ UnifiedAgent.step all_ok (lit "logs:api:abc") [] []
     = (Ok [ [UnifiedAgent.cross_mark]
               ++ lit " Step 'logs:api:abc' failed: "
               ++ lit "invalid literal for int() with base 10: 'abc'" ],
        [])
  /\ UnifiedAgent.step all_ok (lit "logs:api:abc") [] []
     <> (Ok [lit "ok"], [logs_call (Some (lit "api")) 100]).
Proof.
  split; [reflexivity|]. split; [reflexivity|].
  intros E. vm_compute in E. discriminate E.
Qed.

Section Logs.

Import UnifiedAgent.

Context {interpreter : Interpreter}.
Variable substrate : Substrate.

Lemma attempt_parts (op_spec t : str) (more : list str) (h : History) :
  split colon op_spec = t :: more ->
  attempt substrate op_spec h
  = dispatch substrate op_spec (lower t)
      (nth_error more 0) (nth_error more 1) h.
Proof. intros E. unfold attempt. rewrite E. reflexivity. Qed.

Lemma dispatch_logs (op_spec : str) (param1 param2 : option str) (h : History) :
  dispatch substrate op_spec (lit "logs") param1 param2 h
  = bind match param2 with
         | Some p => if truthy p then int_or_raise p else ret 100%Z
         | None => ret 100%Z
         end
         (fun lines => execute_activity substrate (logs_call param1 lines)) h.
Proof. reflexivity. Qed.

(** C5, amended.  For a logs step the line count is made a number when
    the step is dispatched: a count that is absent or empty gives 100, a
    count that [int] accepts gives its value, both handed to the logs
    activity with the container name; a count that [int] rejects makes
    the round record a failure entry with the [ValueError] text, and the
    logs activity is not called. *)
Theorem logs_line_count (op_spec : str) (h : History) :
  lower (token op_spec) = lit "logs" ->
  (truthy_opt (second_param op_spec) = false ->
   attempt substrate op_spec h
   = execute_activity substrate (logs_call (first_param op_spec) 100) h)
  /\ (forall p n,
        second_param op_spec = Some p -> truthy p = true ->
        int p = Some n ->
        attempt substrate op_spec h
        = execute_activity substrate (logs_call (first_param op_spec) n) h)
  /\ (forall p results,
        second_param op_spec = Some p -> truthy p = true ->
        int p = None ->
        step substrate op_spec results h
        = (Ok (results ++
                 [failure_entry op_spec (ValueError (int_error_text p))]),
           h)).
Proof.
  unfold token, first_param, second_param.
  destruct (split_cons colon op_spec) as (t & more & E).
  rewrite E. cbn [hd].
  change (nth_error (t :: more) 1) with (nth_error more 0).
  change (nth_error (t :: more) 2) with (nth_error more 1).
  intros Ht.
  assert (A : forall h0, attempt substrate op_spec h0
    = bind match nth_error more 1 with
           | Some p => if truthy p then int_or_raise p else ret 100%Z
           | None => ret 100%Z
           end
           (fun lines =>
              execute_activity substrate (logs_call (nth_error more 0) lines))
           h0).
  { intros h0. rewrite (@attempt_parts op_spec t more h0 E), Ht.
    apply dispatch_logs. }
  split; [|split].
  - intros F. rewrite A. destruct (nth_error more 1) as [p|]; [|reflexivity].
    simpl in F. now rewrite F.
  - intros p n Ep Tp Ip. rewrite A, Ep, Tp. unfold int_or_raise.
    now rewrite Ip.
  - intros p results Ep Tp Ip. rewrite step_spec.
    unfold entry_of, history_after_step.
    rewrite A, Ep, Tp. unfold int_or_raise. rewrite Ip. reflexivity.
Qed.

End Logs.

Lemma logs_line_count_witness :
  UnifiedAgent.attempt all_ok (lit "logs:api:50") []
  = (Ok (lit "ok"), [logs_call (Some (lit "api")) 50])
  /\ UnifiedAgent.attempt all_ok (lit "logs:api") []
     = (Ok (lit "ok"), [logs_call (Some (lit "api")) 100])
  /\ UnifiedAgent.step all_ok (lit "logs:api:5o") [] []
     = (Ok [ [UnifiedAgent.cross_mark]
               ++ lit " Step 'logs:api:5o' failed: "
               ++ lit "invalid literal for int() with base 10: '5o'" ],
        []).
Proof.
  split; [|split].
  - destruct (logs_line_count all_ok (lit "logs:api:50") [] eq_refl)
      as (_ & H & _).
    rewrite (H (lit "50") 50%Z eq_refl eq_refl eq_refl). reflexivity.
  - destruct (logs_line_count all_ok (lit "logs:api") [] eq_refl)
      as (H & _ & _).
    rewrite (H eq_refl). reflexivity.
  - destruct (logs_line_count all_ok (lit "logs:api:5o") [] eq_refl)
      as (_ & _ & H).
    rewrite (H (lit "5o") [] eq_refl eq_refl eq_refl). reflexivity.
Defined.

(** ** Retry policies *)

(** The status step is dispatched without any retry policy, which
    leaves the number of attempts unbounded: its budget is not one
    attempt, and five attempts are not more than it. *)
Lemma status_budget_is_not_one :
  UnifiedAgent.history_after_step all_ok (lit "status") [] = [status_call]
  /\ retry_policy status_call = None
  /\ attempt_budget (retry_policy status_call) <> AtMost 1
  /\ higher (AtMost 5) (attempt_budget (retry_policy status_call)) = false.
Proof.
  split; [reflexivity|]. split; [reflexivity|].
  split; [discriminate | reflexivity].
Qed.

Section Policies.

Import UnifiedAgent.

Context {interpreter : Interpreter}.
Variable substrate : Substrate.

Lemma execute_activity_history (c : ActivityCall) (h : History) :
  snd (execute_activity substrate c h) = h ++ [c].
Proof.
  unfold execute_activity. now destruct (substrate h c).
Qed.

Ltac one_call :=
  eexists [_]; split; [apply execute_activity_history|];
  split; [repeat constructor | reflexivity].

Ltac no_call :=
  exists []; cbn; rewrite app_nil_r;
  repeat split; [constructor | discriminate].

Lemma dispatch_calls (op_spec op_type : str) (param1 param2 : option str)
    (h : History) :
  exists calls,
    snd (dispatch substrate op_spec op_type param1 param2 h) = h ++ calls
    /\ Forall (fun c => handler_of op_type = Some (activity c)
                        /\ policy_as_dispatched c) calls
    /\ (in_catalog op_type = true ->
        str_eqb op_type (lit "logs") = false ->
        (str_eqb op_type (lit "weather") || str_eqb op_type (lit "fact"))
        && negb (truthy_opt param1) = false ->
        length calls = 1).
Proof.
  unfold dispatch, in_catalog, catalog. cbn [existsb].
  destruct (str_eqb op_type (lit "status")) eqn:E1;
    [apply str_eqb_eq in E1; subst op_type; one_call|].
  destruct (str_eqb op_type (lit "health")) eqn:E2;
    [apply str_eqb_eq in E2; subst op_type; one_call|].
  destruct (str_eqb op_type (lit "logs")) eqn:E3.
  { apply str_eqb_eq in E3; subst op_type. unfold bind.
    destruct param2 as [p|]; [destruct (truthy p)|]; try one_call.
    unfold int_or_raise. destruct (int p); try one_call.
    no_call. }
  destruct (str_eqb op_type (lit "restart")) eqn:E4;
    [apply str_eqb_eq in E4; subst op_type; one_call|].
  destruct (str_eqb op_type (lit "time")) eqn:E5;
    [apply str_eqb_eq in E5; subst op_type; one_call|].
  destruct (str_eqb op_type (lit "weather")) eqn:E6.
  { apply str_eqb_eq in E6; subst op_type.
    destruct (truthy_opt param1); cbn; [one_call|].
    no_call. }
  destruct (str_eqb op_type (lit "fact")) eqn:E7.
  { apply str_eqb_eq in E7; subst op_type.
    destruct (truthy_opt param1); cbn; [one_call|].
    no_call. }
  no_call.
Qed.

(** Every call a step makes goes to the handler of the step's token
    and carries that handler's policy as the code writes it: the
    restart an explicit maximum of five attempts, each of status,
    health, logs, time, weather and fact no retry policy at all, so
    that the substrate's default applies, which sets no maximum.  A
    recognized step other than logs makes exactly one call. *)
Theorem retry_policy_as_dispatched (op_spec : str) (h : History) :
  exists calls,
    history_after_step substrate op_spec h = h ++ calls
    /\ Forall (fun c =>
                 handler_of (lower (token op_spec)) = Some (activity c)
                 /\ policy_as_dispatched c) calls
    /\ (unrecognized op_spec = false ->
        lower (token op_spec) <> lit "logs" ->
        length calls = 1).
Proof.
  unfold history_after_step, unrecognized, token, first_param.
  destruct (split_cons colon op_spec) as (t & more & E).
  rewrite (@attempt_parts _ substrate op_spec t more h E), E. cbn [hd].
  change (nth_error (t :: more) 1) with (nth_error more 0).
  destruct (dispatch_calls op_spec (lower t)
              (nth_error more 0) (nth_error more 1) h)
    as (calls & Hh & Hall & Hone).
  exists calls. split; [exact Hh|]. split; [exact Hall|].
  intros U L. apply orb_false_iff in U as [U1 U2].
  apply negb_false_iff in U1. apply Hone; auto.
  destruct (str_eqb (lower t) (lit "logs")) eqn:El; [|reflexivity].
  apply str_eqb_eq in El. contradiction.
Qed.

End Policies.

(** C6.  The restart is dispatched under a retry policy of at most
    five attempts, which the comment at that call names a high retry
    policy.  It is not the higher one: on the plan
    [restart:cache, status] the status step is dispatched with no
    retry policy, which leaves its attempts without maximum, so the
    restart's budget is below that of the other step and the other
    step's budget is not one attempt. *)
Lemma restart_budget_below_default :
  snd (UnifiedAgent.execute_plan all_ok (lit "restart:cache, status") [])
  = [restart_call (Some (lit "cache")) (Some {| maximum_attempts := 5 |});
     status_call]
  /\ attempt_budget
       (retry_policy
          (restart_call (Some (lit "cache"))
             (Some {| maximum_attempts := 5 |}))) = AtMost 5
  /\ attempt_budget (retry_policy status_call) = Unlimited
  /\ higher (AtMost 5) Unlimited = false
  /\ higher Unlimited (AtMost 5) = true.
Proof. repeat split. Qed.

Lemma retry_policy_as_dispatched_witness :
  UnifiedAgent.history_after_step cache_missing (lit "restart:cache") []
  = [ {| activity := restart_container; args := [VStr (lit "cache")];
         start_to_close_timeout := 30;
         retry_policy := Some {| maximum_attempts := 5 |} |} ]
  /\ exists c,
       UnifiedAgent.history_after_step cache_missing (lit "health:cache") []
       = [c]
       /\ activity c = check_container_health
       /\ attempt_budget (retry_policy c) = Unlimited.
Proof.
  split; [reflexivity|].
  destruct (retry_policy_as_dispatched cache_missing (lit "health:cache") [])
    as (calls & Hh & Hall & Hone).
  assert (L : length calls = 1).
  { apply Hone; [reflexivity|]. vm_compute. discriminate. }
  destruct calls as [|c [|c' calls]]; try discriminate L.
  exists c. split; [exact Hh|].
  inversion Hall as [|c0 l [Hact Hpol] _]; subst.
  change (handler_of (lower (token (lit "health:cache"))))
    with (Some check_container_health) in Hact.
  injection Hact as Hact.
  split; [now symmetry|].
  unfold policy_as_dispatched in Hpol. rewrite <- Hact in Hpol. apply Hpol.
Defined.

(** ** Parsing the plan text *)

Lemma lstrip_nil (s : str) : lstrip s = [] <-> forallb is_space s = true.
Proof.
  induction s as [|c s IH]; simpl; [tauto|].
  destruct (is_space c); simpl; [exact IH|].
  split; discriminate.
Qed.

Lemma lstrip_head (s : str) (c : char) (t : str) :
  lstrip s = c :: t -> is_space c = false.
Proof.
  induction s as [|d s IH]; simpl; [discriminate|].
  destruct (is_space d) eqn:Ed; [exact IH|].
  intros E; injection E as -> _. exact Ed.
Qed.

Lemma forallb_rev (f : char -> bool) (s : str) :
  forallb f (rev s) = forallb f s.
Proof.
  induction s as [|c s IH]; simpl; [reflexivity|].
  rewrite forallb_app, IH. simpl. rewrite andb_true_r. apply andb_comm.
Qed.

Lemma strip_nil (s : str) : strip s = [] <-> forallb is_space s = true.
Proof.
  unfold strip, rstrip. split.
  - intros E.
    assert (E' : lstrip (rev (lstrip s)) = []).
    { destruct (lstrip (rev (lstrip s))) as [|c t]; [reflexivity|].
      simpl in E. destruct (rev t); discriminate E. }
    apply lstrip_nil in E'. rewrite forallb_rev in E'.
    apply lstrip_nil.
    destruct (lstrip s) as [|c t] eqn:L; [reflexivity|].
    apply lstrip_head in L. simpl in E'. now rewrite L in E'.
  - intros A. apply lstrip_nil in A. now rewrite A.
Qed.

Lemma filter_map_length (l : list str) :
  length (filter (fun op => truthy (strip op)) l)
  = length (filter truthy (map strip l)).
Proof.
  induction l as [|op l IH]; simpl; [reflexivity|].
  destruct (truthy (strip op)); simpl; now rewrite IH.
Qed.

Lemma blank_no_operations (plan : str) :
  blank plan = true -> UnifiedAgent.operations_of plan = [].
Proof.
  unfold blank. intros B.
  rewrite forallb_forall in B.
  unfold UnifiedAgent.operations_of.
  assert (P : forall op, In op (split comma plan) -> strip op = []).
  { intros op Hop. apply strip_nil. apply forallb_forall. intros c Hc.
    destruct (split_pieces comma plan op c Hop Hc) as [Hin Hne].
    specialize (B c Hin). apply orb_true_iff in B as [B|B]; [exact B|].
    apply char_eqb_eq in B. contradiction. }
  induction (split comma plan) as [|op l IH]; simpl; [reflexivity|].
  rewrite (P op (or_introl eq_refl)). simpl.
  apply IH. intros op' H'. apply P. now right.
Qed.

Section Parsing.

Import UnifiedAgent.

Context {interpreter : Interpreter}.

(** C7.  Parsing is a total function of the plan text, and it gives as
    many operations as there are comma-separated segments that are not
    empty once trimmed.  A plan text that is empty or holds only
    whitespace and commas gives no operation; and with no operation the
    run makes no call beyond the planner's and ends normally with the
    empty report. *)
Theorem parsing_never_fails (plan : str) :
  length (operations_of plan) = segment_count plan
  /\ (blank plan = true -> operations_of plan = [])
  /\ (operations_of plan = [] ->
      forall substrate task h,
        substrate h (planner_call task) = Completed plan ->
        run substrate task h = (Ok [], h ++ [planner_call task])).
Proof.
  split; [|split].
  - rewrite operations_of_filter, length_map. apply filter_map_length.
  - apply blank_no_operations.
  - intros E substrate task h Hp. rewrite run_spec, Hp. cbv zeta.
    rewrite E. reflexivity.
Qed.

End Parsing.

Lemma parsing_never_fails_witness :
  UnifiedAgent.operations_of [] = []
  /\ UnifiedAgent.operations_of (lit " ,  , ") = []
  /\ length (UnifiedAgent.operations_of (lit "time, ,weather:London,")) = 2
  /\ UnifiedAgent.run (planner_says (lit " ,  , ")) (lit "do nothing") []
     = (Ok [], [UnifiedAgent.planner_call (lit "do nothing")]).
Proof.
  destruct (parsing_never_fails []) as (_ & B0 & _).
  destruct (parsing_never_fails (lit " ,  , ")) as (_ & B1 & R1).
  destruct (parsing_never_fails (lit "time, ,weather:London,")) as (L & _).
  split; [apply B0; reflexivity|].
  split; [apply B1; reflexivity|].
  split; [rewrite L; reflexivity|].
  apply (R1 (B1 eq_refl) (planner_says (lit " ,  , ")) (lit "do nothing") []).
  reflexivity.
Defined.

(** ** Components after the second parameter *)

Section Extra.

Import UnifiedAgent.

Context {interpreter : Interpreter}.
Variable substrate : Substrate.

Lemma execute_activity_outcome (c : ActivityCall) (h : History) :
  exists o, forall op_spec,
    execute_activity substrate c h = (result_of op_spec o, h ++ [c]).
Proof.
  unfold execute_activity. destruct (substrate h c) as [text|msg].
  - now exists (Success text).
  - now exists (Failure (ActivityError msg)).
Qed.

(** Apart from the text of the entry for an unrecognized operation,
    the dispatcher does not look at the segment itself. *)
Lemma dispatch_outcome (op_type : str) (param1 param2 : option str)
    (h : History) :
  exists o h', forall op_spec,
    dispatch substrate op_spec op_type param1 param2 h
    = (result_of op_spec o, h').
Proof.
  unfold dispatch.
  repeat match goal with
  | |- context [if ?b then _ else _] => destruct b
  | |- exists o h', forall op_spec,
         execute_activity substrate ?c h = _ =>
      destruct (execute_activity_outcome c h) as (o & Ho);
      exists o, (h ++ [c]); exact Ho
  end.
  - unfold bind.
    destruct param2 as [p|]; [destruct (truthy p)|]; cbn [ret].
    + unfold int_or_raise. destruct (int p) as [n|]; cbn [ret raise].
      * destruct (execute_activity_outcome
                    (logs_call param1 n) h) as (o & Ho).
        exists o, (h ++ [logs_call param1 n]). exact Ho.
      * eexists (Failure _), h. reflexivity.
    + destruct (execute_activity_outcome
                  (logs_call param1 100) h) as (o & Ho).
      exists o, (h ++ [logs_call param1 100]). exact Ho.
    + destruct (execute_activity_outcome
                  (logs_call param1 100) h) as (o & Ho).
      exists o, (h ++ [logs_call param1 100]). exact Ho.
  - exists Unknown, h. reflexivity.
Qed.

(** C9.  Of a segment with three or more colon-separated pieces only
    the token and the two pieces after it are read.  The round for
    such a segment makes the same calls and ends with the same outcome
    as the round for the segment made of its first three pieces alone;
    the entries differ at most in the text of the segment they quote. *)
Theorem extra_components_ignored
    (op_spec t p1 p2 : str) (extra : list str)
    (results : list str) (h : History) :
  split colon op_spec = t :: p1 :: p2 :: extra ->
  let op_spec' := join [colon] [t; p1; p2] in
  split colon op_spec' = [t; p1; p2]
  /\ exists outcome h',
       step substrate op_spec results h
       = (Ok (results ++ [render op_spec outcome]), h')
       /\ step substrate op_spec' results h
          = (Ok (results ++ [render op_spec' outcome]), h').
Proof.
  intros E op_spec'.
  assert (E' : split colon op_spec' = [t; p1; p2]).
  { apply split_join.
    assert (P : forall q, In q [t; p1; p2] -> ~ In colon q).
    { intros q Hq Hc.
      assert (Hin : In q (split colon op_spec)).
      { rewrite E. simpl in Hq |- *. tauto. }
      now destruct (split_pieces colon op_spec q colon Hin Hc). }
    repeat constructor; apply P; simpl; auto. }
  split; [exact E'|].
  destruct (dispatch_outcome (lower t) (Some p1) (Some p2) h)
    as (o & h' & Ho).
  exists o, h'.
  rewrite !step_spec. unfold entry_of, history_after_step.
  rewrite (@attempt_parts _ substrate op_spec t _ h E).
  rewrite (@attempt_parts _ substrate op_spec' t _ h E').
  cbn [nth_error]. rewrite !Ho.
  destruct o; split; reflexivity.
Qed.

End Extra.

Lemma extra_components_ignored_witness :
  UnifiedAgent.step all_ok (lit "logs:api:50:extra") [] []
  = (Ok [lit "ok"], [logs_call (Some (lit "api")) 50])
  /\ UnifiedAgent.step all_ok (lit "logs:api:50") [] []
     = (Ok [lit "ok"], [logs_call (Some (lit "api")) 50]).
Proof.
  destruct (@extra_components_ignored _ all_ok
              (lit "logs:api:50:extra")
              (lit "logs") (lit "api") (lit "50") [lit "extra"]
              [] [] eq_refl)
    as (_ & o & h' & H1 & H2).
  change (join [colon] [lit "logs"; lit "api"; lit "50"])
    with (lit "logs:api:50") in H2.
  assert (Ho : o = Success (lit "ok") /\ h' = [logs_call (Some (lit "api")) 50]).
  { assert (H3 : UnifiedAgent.step all_ok (lit "logs:api:50") [] []
                 = (Ok [lit "ok"], [logs_call (Some (lit "api")) 50]))
      by reflexivity.
    rewrite H2 in H3. injection H3 as H3 H4. split; [|exact H4].
    destruct o as [text|e|]; cbn in H3.
    - now rewrite H3.
    - discriminate H3.
    - discriminate H3. }
  destruct Ho as [-> ->]. split; [exact H1 | exact H2].
Defined.

(** ** The two workflows *)

(** C8.  The two workflows differ at the restart:
    [src/unified_agent/workflow.py] gives it a retry policy of at most
    five attempts, which the comment at that call names a high retry
    policy, and [src/src/unified_agent/workflow.py] gives it none.  The
    five attempts are not the higher budget: without a policy the
    attempts have no maximum. *)
Lemma restart_budget_is_not_higher :
  snd (UnifiedAgent.attempt all_ok (lit "restart:cache") [])
  = [restart_call (Some (lit "cache")) (Some {| maximum_attempts := 5 |})]
  /\ snd (SrcUnifiedAgent.attempt all_ok (lit "restart:cache") [])
     = [restart_call (Some (lit "cache")) None]
  /\ higher (attempt_budget (Some {| maximum_attempts := 5 |}))
            (attempt_budget None) = false.
Proof. repeat split. Qed.

Section Divergence.

Context {interpreter : Interpreter}.
Variable substrate : Substrate.

Lemma src_attempt_parts (op_spec t : str) (more : list str) (h : History) :
  split colon op_spec = t :: more ->
  SrcUnifiedAgent.attempt substrate op_spec h
  = SrcUnifiedAgent.dispatch substrate (lower t)
      (nth_error more 0) (nth_error more 1) h.
Proof. intros E. unfold SrcUnifiedAgent.attempt. rewrite E. reflexivity. Qed.

Lemma src_attempt_unrecognized (op_spec : str) (h : History) :
  unrecognized op_spec = true ->
  SrcUnifiedAgent.attempt substrate op_spec h = (Ok None, h).
Proof.
  unfold unrecognized, token, first_param, in_catalog, catalog.
  destruct (split_cons colon op_spec) as (p & ps & E).
  rewrite (@src_attempt_parts op_spec p ps h E), E.
  cbn [hd existsb].
  change (nth_error (p :: ps) 1) with (nth_error ps 0).
  unfold SrcUnifiedAgent.dispatch.
  repeat match goal with
  | |- context [if str_eqb (lower p) ?l then _ else _] =>
      destruct (str_eqb (lower p) l) eqn:E0;
      [apply str_eqb_eq in E0; rewrite E0; cbn; discriminate | clear E0]
  end.
  destruct (str_eqb (lower p) (lit "weather")) eqn:Ew.
  - apply str_eqb_eq in Ew; rewrite Ew.
    destruct (truthy_opt (nth_error ps 0)); cbn; try discriminate;
      reflexivity.
  - destruct (str_eqb (lower p) (lit "fact"));
      destruct (truthy_opt (nth_error ps 0)); cbn; try discriminate;
      reflexivity.
Qed.

Lemma src_some_history (c : ActivityCall) (h : History) :
  snd (SrcUnifiedAgent.some (execute_activity substrate c) h) = h ++ [c].
Proof.
  unfold SrcUnifiedAgent.some, bind, execute_activity.
  now destruct (substrate h c).
Qed.

Lemma src_dispatch_calls (op_type : str) (param1 param2 : option str)
    (h : History) :
  exists calls,
    snd (SrcUnifiedAgent.dispatch substrate op_type param1 param2 h)
    = h ++ calls
    /\ Forall (fun c => retry_policy c = None) calls.
Proof.
  unfold SrcUnifiedAgent.dispatch.
  repeat match goal with
  | |- context [if ?b then _ else _] => destruct b
  | |- exists calls,
         snd (SrcUnifiedAgent.some (execute_activity substrate ?c) h) = _ /\ _ =>
      exists [c]; split; [apply src_some_history | repeat constructor]
  end.
  - unfold bind.
    destruct param2 as [p|]; [destruct (truthy p)|]; cbn [ret].
    + unfold int_or_raise. destruct (int p) as [n|]; cbn [ret raise].
      * eexists [_]. split; [apply src_some_history | repeat constructor].
      * exists []. cbn. now rewrite app_nil_r.
    + eexists [_]. split; [apply src_some_history | repeat constructor].
    + eexists [_]. split; [apply src_some_history | repeat constructor].
  - exists []. cbn. now rewrite app_nil_r.
Qed.

(** The two workflows are not equal.  An unrecognized
    segment is reported by one as [Skipped unknown operation:
    <segment>] and by the other as the text [None]; one gives the
    restart call an explicit retry policy of at most five attempts,
    where the other gives it none; and the other passes no retry
    policy in any step, the same for all.  So there are runs on which
    the two differ. *)
Theorem workflows_diverge
    (op_spec : str) (results : list str) (h : History) :
  (unrecognized op_spec = true ->
   UnifiedAgent.step substrate op_spec results h
   = (Ok (results ++ [lit "Skipped unknown operation: " ++ op_spec]), h)
   /\ SrcUnifiedAgent.step substrate op_spec results h
      = (Ok (results ++ [lit "None"]), h))
  /\ (lower (token op_spec) = lit "restart" ->
      snd (UnifiedAgent.attempt substrate op_spec h)
      = h ++ [restart_call (first_param op_spec)
                (Some {| maximum_attempts := 5 |})]
      /\ snd (SrcUnifiedAgent.attempt substrate op_spec h)
         = h ++ [restart_call (first_param op_spec) None])
  /\ (exists calls,
        snd (SrcUnifiedAgent.attempt substrate op_spec h) = h ++ calls
        /\ Forall (fun c => retry_policy c = None) calls)
  /\ (exists sub task,
        UnifiedAgent.run sub task [] <> SrcUnifiedAgent.run sub task []).
Proof.
  split; [|split; [|split]].
  - intros U. split.
    + rewrite step_spec. unfold UnifiedAgent.entry_of,
        UnifiedAgent.history_after_step.
      now rewrite (attempt_unrecognized substrate op_spec h U).
    + unfold SrcUnifiedAgent.step, try_except, bind.
      now rewrite (src_attempt_unrecognized op_spec h U).
  - unfold token, first_param.
    destruct (split_cons colon op_spec) as (t & more & E).
    rewrite E. cbn [hd].
    change (nth_error (t :: more) 1) with (nth_error more 0).
    intros Ht.
    rewrite (@attempt_parts _ substrate op_spec t more h E).
    rewrite (@src_attempt_parts op_spec t more h E). rewrite Ht.
    split; [apply execute_activity_history | apply src_some_history].
  - destruct (split_cons colon op_spec) as (t & more & E).
    rewrite (@src_attempt_parts op_spec t more h E).
    apply src_dispatch_calls.
  - exists (planner_says (lit "reboot")), (lit "reboot the rack").
    vm_compute. discriminate.
Qed.

End Divergence.

Lemma workflows_diverge_witness :
  UnifiedAgent.run (planner_says (lit "reboot")) (lit "reboot the rack") []
  = (Ok (lit "Skipped unknown operation: reboot"),
     [UnifiedAgent.planner_call (lit "reboot the rack")])
  /\ SrcUnifiedAgent.run (planner_says (lit "reboot")) (lit "reboot the rack") []
     = (Ok (lit "None"), [SrcUnifiedAgent.planner_call (lit "reboot the rack")])
  /\ UnifiedAgent.step all_ok (lit "reboot") [] []
     = (Ok [lit "Skipped unknown operation: reboot"], [])
  /\ SrcUnifiedAgent.step all_ok (lit "reboot") [] [] = (Ok [lit "None"], [])
  /\ snd (UnifiedAgent.attempt all_ok (lit "Restart:cache") [])
     = [restart_call (Some (lit "cache")) (Some {| maximum_attempts := 5 |})]
  /\ snd (SrcUnifiedAgent.attempt all_ok (lit "Restart:cache") [])
     = [restart_call (Some (lit "cache")) None].
Proof.
  split; [reflexivity|]. split; [reflexivity|].
  destruct (workflows_diverge all_ok (lit "reboot") [] [])
    as (Hu & _ & _ & _).
  destruct (workflows_diverge all_ok (lit "Restart:cache") [] [])
    as (_ & Hr & _ & _).
  destruct (Hu eq_refl) as [Ha Hb].
  destruct (Hr eq_refl) as [Hc Hd].
  split; [exact Ha|]. split; [exact Hb|]. split; [exact Hc | exact Hd].
Defined.

(** ** The restart activity *)

Section Restart.

Import DockerTemporalAgent.

Context {interpreter : Interpreter}.

(** C10.  When the container runtime reports that the restart did not
    leave the container running, the restart activity still returns a
    text and raises nothing; only the wording tells the two returns
    apart.  In the workflow that text is recorded as the step's result
    like any other, with no failure entry. *)
Theorem restart_returns_when_not_running
    (substrate : Substrate) (container_name : str) :
  let degraded :=
    lit "Container '" ++ container_name
      ++ lit "' was restarted but may not be running properly" in
  restart_container_activity (restart_returns false) container_name
  = Returned degraded
  /\ (forall e,
        restart_container_activity (restart_returns false) container_name
        <> Raised e)
  /\ restart_container_activity (restart_returns true) container_name
     <> Returned degraded
  /\ (forall op_spec results h,
        lower (token op_spec) = lit "restart" ->
        first_param op_spec = Some container_name ->
        substrate h
          (restart_call (Some container_name)
             (Some {| maximum_attempts := 5 |}))
        = Completed degraded ->
        UnifiedAgent.step substrate op_spec results h
        = (Ok (results ++ [degraded]),
           h ++ [restart_call (Some container_name)
                   (Some {| maximum_attempts := 5 |})])).
Proof.
  intros degraded.
  split; [reflexivity|]. split; [discriminate|]. split; [discriminate|].
  intros op_spec results h. unfold token, first_param.
  destruct (split_cons colon op_spec) as (t & more & E).
  rewrite E. cbn [hd].
  change (nth_error (t :: more) 1) with (nth_error more 0).
  intros Ht Hp Hs.
  rewrite step_spec.
  unfold UnifiedAgent.entry_of, UnifiedAgent.history_after_step.
  rewrite (@attempt_parts _ substrate op_spec t more h E), Ht, Hp.
  change (UnifiedAgent.dispatch substrate op_spec (lit "restart")
            (Some container_name) (nth_error more 1) h)
    with (execute_activity substrate
            (restart_call (Some container_name)
               (Some {| maximum_attempts := 5 |})) h).
  unfold execute_activity. now rewrite Hs.
Qed.

End Restart.

Lemma restart_returns_when_not_running_witness :
  DockerTemporalAgent.restart_container_activity
    (DockerTemporalAgent.restart_returns false) (lit "cache")
  = Returned
      (lit "Container 'cache' was restarted but may not be running properly")
  /\ UnifiedAgent.step
       (docker_worker (DockerTemporalAgent.restart_returns false))
       (lit "restart:cache") [] []
     = (Ok [lit "Container 'cache' was restarted but may not be running properly"],
        [restart_call (Some (lit "cache"))
           (Some {| maximum_attempts := 5 |})]).
Proof.
  destruct (restart_returns_when_not_running
              (docker_worker (DockerTemporalAgent.restart_returns false))
              (lit "cache")) as (Hret & _ & _ & Hstep).
  split; [exact Hret|].
  apply (Hstep (lit "restart:cache") [] []); reflexivity.
Defined.

(** * More of the sources *)

Import PyFormat View.

(** ** Trimmed text *)

Lemma lstrip_decomp (s : str) :
  exists p, s = p ++ lstrip s /\ forallb is_space p = true.
Proof.
  induction s as [|c s (p & E & A)]; simpl.
  - now exists [].
  - destruct (is_space c) eqn:Ec.
    + exists (c :: p). simpl. rewrite Ec, A. split; [now f_equal|reflexivity].
    + now exists [].
Qed.

Lemma lstrip_idem (s : str) : lstrip (lstrip s) = lstrip s.
Proof.
  induction s as [|c s IH]; simpl; [reflexivity|].
  destruct (is_space c) eqn:Ec; [exact IH|]. simpl. now rewrite Ec.
Qed.

Lemma lstrip_incl (s : str) (c : char) : In c (lstrip s) -> In c s.
Proof.
  destruct (lstrip_decomp s) as (p & E & _). intros H.
  rewrite E. apply in_or_app. now right.
Qed.

Lemma strip_incl (s : str) (c : char) : In c (strip s) -> In c s.
Proof.
  unfold strip, rstrip. intros H.
  apply in_rev in H. apply lstrip_incl in H. apply in_rev in H.
  now apply lstrip_incl.
Qed.

Lemma strip_trimmed (s : str) : trimmed (strip s).
Proof.
  unfold trimmed, strip, rstrip.
  set (u := lstrip s). set (v := lstrip (rev u)).
  split.
  - destruct (rev v) as [|c t] eqn:Ev; [reflexivity|].
    destruct (lstrip_decomp (rev u)) as (p & E & _). fold v in E.
    assert (Eu : u = (c :: t) ++ rev p).
    { rewrite <- (rev_involutive u), E, rev_app_distr, Ev. reflexivity. }
    simpl in Eu. apply lstrip_head in Eu. simpl. now rewrite Eu.
  - rewrite rev_involutive. apply lstrip_idem.
Qed.

Lemma trimmed_strip (s : str) : trimmed s -> strip s = s.
Proof.
  intros [L R]. unfold strip, rstrip. rewrite L, R. apply rev_involutive.
Qed.

Lemma strip_idem (s : str) : strip (strip s) = strip s.
Proof. apply trimmed_strip, strip_trimmed. Qed.

Lemma strip_lead_space (c : char) (s : str) :
  is_space c = true -> strip (c :: s) = strip s.
Proof. intros E. unfold strip. simpl. now rewrite E. Qed.

(** ** More on plan texts *)

Lemma split_app (sep : char) (a b : str) :
  split sep (a ++ sep :: b) = split sep a ++ split sep b.
Proof.
  induction a as [|c a IH]; simpl.
  - now rewrite (proj2 (char_eqb_eq sep sep) eq_refl).
  - destruct (char_eqb c sep); rewrite IH; [reflexivity|].
    destruct (split_cons sep a) as (p & ps & ->). reflexivity.
Qed.

Section PlanTexts.

Import UnifiedAgent.

Lemma operations_shape (plan : str) :
  Forall (fun op => op <> [] /\ ~ In comma op /\ trimmed op)
         (operations_of plan).
Proof.
  rewrite operations_of_filter. apply Forall_forall. intros op Hop.
  apply in_map_iff in Hop as (seg & <- & Hseg).
  apply filter_In in Hseg as [Hseg Ht].
  split; [|split].
  - intros E. now rewrite E in Ht.
  - intros Hc. apply strip_incl in Hc.
    now destruct (split_pieces comma plan seg comma Hseg Hc).
  - apply strip_trimmed.
Qed.

(** X1.  Every operation the parser gives is a piece of text that is
    not empty, holds no comma and has no whitespace at either end. *)
Theorem operations_wellformed (plan : str) :
  Forall (fun op => op <> [] /\ ~ In comma op /\ trimmed op)
         (operations_of plan).
Proof.
  apply Forall_forall. intros op Hop.
  exact (proj1 (Forall_forall _ _) (operations_shape plan) op Hop).
Qed.

Lemma operations_of_app (a b : str) :
  operations_of (a ++ comma :: b) = operations_of a ++ operations_of b.
Proof.
  unfold operations_of. now rewrite split_app, flat_map_app.
Qed.

(** X2.  Parsing two plan texts put together with a comma gives the
    operations of the first followed by those of the second. *)
Theorem operations_of_concat (a b : str) :
  operations_of (a ++ comma :: b) = operations_of a ++ operations_of b.
Proof.
  unfold operations_of.
  rewrite split_app. apply flat_map_app.
Qed.

Lemma operations_of_single (op : str) :
  op <> [] -> ~ In comma op -> trimmed op -> operations_of op = [op].
Proof.
  intros Hne Hc Ht. unfold operations_of.
  rewrite (@split_no_sep comma op Hc). simpl.
  rewrite (@trimmed_strip op Ht). destruct op; [contradiction|reflexivity].
Qed.

Lemma operations_of_lead_space (c : char) (plan : str) :
  is_space c = true -> operations_of (c :: plan) = operations_of plan.
Proof.
  intros E. unfold operations_of. simpl.
  assert (N : char_eqb c comma = false).
  { destruct (char_eqb c comma) eqn:Ec; [|reflexivity].
    apply char_eqb_eq in Ec. subst c. discriminate E. }
  rewrite N. destruct (split_cons comma plan) as (p & ps & ->).
  simpl. now rewrite (@strip_lead_space c p E).
Qed.

Lemma reparse (ops : list str) :
  Forall (fun op => op <> [] /\ ~ In comma op /\ trimmed op) ops ->
  operations_of (join [comma] ops) = ops
  /\ operations_of (join (lit ", ") ops) = ops.
Proof.
  induction ops as [|op ops IH]; intros F; [split; reflexivity|].
  inversion F as [|? ? (Hne & Hc & Ht) F']; subst.
  destruct (IH F') as [IH1 IH2].
  destruct ops as [|q ops].
  - simpl. split; now apply operations_of_single.
  - split.
    + change (join [comma] (op :: q :: ops))
        with (op ++ comma :: join [comma] (q :: ops)).
      rewrite operations_of_app, IH1, operations_of_single; auto.
    + change (join (lit ", ") (op :: q :: ops))
        with (op ++ comma :: 32%N :: join (lit ", ") (q :: ops)).
      rewrite operations_of_app, operations_of_lead_space by reflexivity.
      rewrite IH2, operations_of_single; auto.
Qed.

(** X3.  Writing the parsed operations back as a plan text, with [,]
    or with [, ] between them, and parsing that text gives the same
    operations again. *)
Theorem reparse_operations (plan : str) :
  operations_of (join [comma] (operations_of plan)) = operations_of plan
  /\ operations_of (join (lit ", ") (operations_of plan)) = operations_of plan.
Proof. apply reparse, operations_shape. Qed.

End PlanTexts.

(** ** What the dispatcher settles *)

Section Decisions.

Import UnifiedAgent.

Context {interpreter : Interpreter}.
Variable substrate : Substrate.

Lemma dispatch_decide (op_spec op_type : str) (param1 param2 : option str)
    (h : History) :
  dispatch substrate op_spec op_type param1 param2 h
  = match decide op_type param1 param2 with
    | Invoke c => execute_activity substrate c h
    | Reject e => (Raise e, h)
    | Skip => (Ok (lit "Skipped unknown operation: " ++ op_spec), h)
    end.
Proof.
  unfold dispatch, decide.
  repeat match goal with
  | |- context [if ?b then _ else _] => destruct b; try reflexivity
  end.
  unfold bind. destruct param2 as [[|c p]|]; try reflexivity.
  cbn [truthy]. unfold int_or_raise. destruct (int (c :: p)); reflexivity.
Qed.

Lemma attempt_decision (op_spec : str) (h : History) :
  attempt substrate op_spec h
  = match decision_of op_spec with
    | Invoke c => execute_activity substrate c h
    | Reject e => (Raise e, h)
    | Skip => (Ok (lit "Skipped unknown operation: " ++ op_spec), h)
    end.
Proof.
  unfold decision_of, token, first_param, second_param.
  destruct (split_cons colon op_spec) as (t & more & E).
  rewrite (@attempt_parts _ substrate op_spec t more h E), E.
  apply dispatch_decide.
Qed.

Lemma history_after_step_calls (op_spec : str) (h : History) :
  history_after_step substrate op_spec h = h ++ calls_of op_spec.
Proof.
  unfold history_after_step, calls_of. rewrite attempt_decision.
  destruct (decision_of op_spec) as [c|e|]; cbn [snd];
    [apply execute_activity_history | now rewrite app_nil_r ..].
Qed.

Lemma history_after_calls (operations : list str) :
  forall h,
    history_after substrate operations h
    = h ++ flat_map calls_of operations.
Proof.
  induction operations as [|op rest IH]; intros h; simpl.
  - now rewrite app_nil_r.
  - now rewrite IH, history_after_step_calls, <- app_assoc.
Qed.

End Decisions.

Section Calls.

Import UnifiedAgent.

Context {interpreter : Interpreter}.
Variable substrate : Substrate.

(** X4.  The activity calls of a plan are settled by the plan text
    alone: whatever the activities answer, and whether they fail or
    not, the loop makes the calls [planned_calls] reads off the text,
    in that order, after those made before; two substrates see the
    same calls. *)
Theorem calls_follow_plan_text (plan : str) (h : History) :
  snd (execute_plan substrate plan h) = h ++ planned_calls plan
  /\ forall substrate',
       snd (execute_plan substrate' plan h)
       = snd (execute_plan substrate plan h).
Proof.
  assert (P : forall sub,
             snd (execute_plan sub plan h) = h ++ planned_calls plan).
  { intros sub. rewrite execute_plan_spec. apply history_after_calls. }
  split; [apply P|]. intros sub'. now rewrite !P.
Qed.

Lemma decide_call (op_type : str) (param1 param2 : option str)
    (c : ActivityCall) :
  decide op_type param1 param2 = Invoke c ->
  activity c <> unified_orchestrator
  /\ start_to_close_timeout c = timeout_of (activity c)
  /\ (0 < start_to_close_timeout c <= 30)%Z.
Proof.
  unfold decide.
  repeat match goal with
  | |- context [if ?b then _ else _] => destruct b
  | |- context [match ?p with Some _ => _ | None => _ end] => destruct p
  | |- context [match ?p with [] => _ | _ :: _ => _ end] => destruct p
  end;
  intros E; try discriminate E; injection E as <-; cbn;
    (split; [discriminate | split; [reflexivity | lia]]).
Qed.

(** X5.  A run calls the planner once, before anything else.  Every
    later call goes to a handler, never to the planner, with the
    timeout of that handler (between 5 and 30 seconds), and there is
    at most one call for each operation of the plan; when the planner
    call fails there is none. *)
Theorem run_calls (task : str) (h : History) :
  exists calls,
    snd (run substrate task h) = h ++ planner_call task :: calls
    /\ start_to_close_timeout (planner_call task)
       = timeout_of (activity (planner_call task))
    /\ Forall (fun c => activity c <> unified_orchestrator
                        /\ start_to_close_timeout c = timeout_of (activity c)
                        /\ (0 < start_to_close_timeout c <= 30)%Z) calls
    /\ (forall plan,
          substrate h (planner_call task) = Completed plan ->
          calls = planned_calls plan
          /\ length calls <= length (operations_of plan))
    /\ (forall msg,
          substrate h (planner_call task) = Failed msg -> calls = []).
Proof.
  assert (P : forall ops,
    Forall (fun c => activity c <> unified_orchestrator
                     /\ start_to_close_timeout c = timeout_of (activity c)
                     /\ (0 < start_to_close_timeout c <= 30)%Z)
           (flat_map calls_of ops)
    /\ length (flat_map calls_of ops) <= length ops).
  { induction ops as [|op ops [IH1 IH2]]; simpl; [split; [constructor|lia]|].
    unfold calls_of at 1 3. unfold decision_of.
    destruct (decide _ _ _) as [c|e|] eqn:D; simpl.
    - split; [constructor; [eapply decide_call; eauto | auto] | lia].
    - split; [auto|lia].
    - split; [auto|lia]. }
  rewrite run_spec.
  destruct (substrate h (planner_call task)) as [plan|msg] eqn:E.
  - exists (planned_calls plan). cbv zeta. cbn [snd].
    rewrite history_after_calls, <- app_assoc.
    split; [reflexivity|]. split; [reflexivity|].
    split; [apply P|]. split.
    + intros plan' E'. injection E' as <-. split; [reflexivity | apply P].
    + discriminate.
  - exists []. cbn [snd].
    split; [reflexivity|]. split; [reflexivity|].
    split; [constructor|]. split; [discriminate | reflexivity].
Qed.

End Calls.

(** ** Rounds one after another *)

Section Composition.

Import UnifiedAgent.

Context {interpreter : Interpreter}.
Variable substrate : Substrate.

Lemma entries_app (ops1 ops2 : list str) :
  forall h,
    entries substrate (ops1 ++ ops2) h
    = entries substrate ops1 h
      ++ entries substrate ops2 (history_after substrate ops1 h).
Proof.
  induction ops1 as [|op ops1 IH]; intros h; simpl; [reflexivity|].
  now rewrite IH.
Qed.

Lemma history_after_app (ops1 ops2 : list str) :
  forall h,
    history_after substrate (ops1 ++ ops2) h
    = history_after substrate ops2 (history_after substrate ops1 h).
Proof.
  induction ops1 as [|op ops1 IH]; intros h; simpl; [reflexivity|].
  now rewrite IH.
Qed.

(** X6.  Running the plan text [a,b] is running [a] and then running
    [b] from where [a] left things: the results of the whole are the
    results of [a] followed by those of [b]. *)
Theorem plans_compose (a b : str) (h : History) :
  exists r1 h1 r2 h2,
    execute_plan substrate a h = (Ok r1, h1)
    /\ execute_plan substrate b h1 = (Ok r2, h2)
    /\ execute_plan substrate (a ++ comma :: b) h = (Ok (r1 ++ r2), h2).
Proof.
  exists (entries substrate (operations_of a) h),
         (history_after substrate (operations_of a) h),
         (entries substrate (operations_of b)
            (history_after substrate (operations_of a) h)),
         (history_after substrate (operations_of b)
            (history_after substrate (operations_of a) h)).
  rewrite !execute_plan_spec, operations_of_app.
  now rewrite entries_app, history_after_app.
Qed.

Lemma entry_of_stateless (op_spec : str) (h : History) :
  (forall h1 h2 c, substrate h1 c = substrate h2 c) ->
  entry_of substrate op_spec h = entry_of substrate op_spec [].
Proof.
  intros St. unfold entry_of. rewrite !attempt_decision.
  destruct (decision_of op_spec) as [c|e|]; try reflexivity.
  unfold execute_activity. rewrite (St h [] c).
  now destruct (substrate [] c).
Qed.

(** X7.  Steps pass nothing to one another: when the activities answer
    without regard to what was called before, the result of a step
    depends on its own segment only, wherever it stands in the plan. *)
Theorem steps_are_independent (plan : str) (h : History) :
  (forall h1 h2 c, substrate h1 c = substrate h2 c) ->
  fst (execute_plan substrate plan h)
  = Ok (map (fun op_spec => entry_of substrate op_spec [])
            (operations_of plan)).
Proof.
  intros St. rewrite execute_plan_spec. cbn [fst]. f_equal.
  revert h. induction (operations_of plan) as [|op rest IH]; intros h; simpl.
  - reflexivity.
  - now rewrite IH, (entry_of_stateless op h St).
Qed.

(** X8.  The operation token is matched without regard to case: two
    segments whose tokens differ only in the case of their letters and
    whose parameters are the same make the same calls and end with the
    same outcome. *)
Theorem token_case_is_ignored
    (op_spec op_spec' t t' : str) (more : list str)
    (results : list str) (h : History) :
  split colon op_spec = t :: more ->
  split colon op_spec' = t' :: more ->
  lower t = lower t' ->
  exists outcome h',
    step substrate op_spec results h
    = (Ok (results ++ [render op_spec outcome]), h')
    /\ step substrate op_spec' results h
       = (Ok (results ++ [render op_spec' outcome]), h').
Proof.
  intros E E' L.
  destruct (dispatch_outcome substrate (lower t)
              (nth_error more 0) (nth_error more 1) h) as (o & h' & Ho).
  exists o, h'.
  rewrite !step_spec. unfold entry_of, history_after_step.
  rewrite (@attempt_parts _ substrate op_spec t more h E).
  rewrite (@attempt_parts _ substrate op_spec' t' more h E'), <- L.
  rewrite !Ho. destruct o; split; reflexivity.
Qed.

End Composition.

(** ** The two workflows, where they agree *)

Section Agreement.

Context {interpreter : Interpreter}.
Variable substrate : Substrate.

Lemma src_dispatch_decide (op_type : str) (param1 param2 : option str)
    (h : History) :
  SrcUnifiedAgent.dispatch substrate op_type param1 param2 h
  = match decide op_type param1 param2 with
    | Invoke c =>
        SrcUnifiedAgent.some (execute_activity substrate (no_policy c)) h
    | Reject e => (Raise e, h)
    | Skip => (Ok None, h)
    end.
Proof.
  unfold SrcUnifiedAgent.dispatch, decide.
  repeat match goal with
  | |- context [if ?b then _ else _] => destruct b; try reflexivity
  end.
  unfold bind. destruct param2 as [[|c p]|]; try reflexivity.
  cbn [truthy]. unfold int_or_raise. destruct (int (c :: p)); reflexivity.
Qed.

Lemma src_attempt_decision (op_spec : str) (h : History) :
  SrcUnifiedAgent.attempt substrate op_spec h
  = match decision_of op_spec with
    | Invoke c =>
        SrcUnifiedAgent.some (execute_activity substrate (no_policy c)) h
    | Reject e => (Raise e, h)
    | Skip => (Ok None, h)
    end.
Proof.
  unfold decision_of, token, first_param, second_param.
  destruct (split_cons colon op_spec) as (t & more & E).
  rewrite (@src_attempt_parts _ substrate op_spec t more h E), E.
  apply src_dispatch_decide.
Qed.

Lemma decide_plain (op_type : str) (param1 param2 : option str)
    (c : ActivityCall) :
  decide op_type param1 param2 = Invoke c ->
  str_eqb op_type (lit "restart") = false ->
  no_policy c = c.
Proof.
  unfold decide.
  repeat match goal with
  | |- context [if ?b then _ else _] => destruct b
  | |- context [match ?p with Some _ => _ | None => _ end] => destruct p
  | |- context [match ?p with [] => _ | _ :: _ => _ end] => destruct p
  end;
  intros E N; try discriminate E; try discriminate N;
    injection E as <-; reflexivity.
Qed.

Lemma decision_skip (op_spec : str) :
  decision_of op_spec = Skip -> unrecognized op_spec = true.
Proof.
  unfold decision_of, unrecognized, in_catalog, catalog, decide.
  cbn [existsb]. set (t := lower (token op_spec)).
  destruct (str_eqb t (lit "status")); [discriminate|].
  destruct (str_eqb t (lit "health")); [discriminate|].
  destruct (str_eqb t (lit "logs")).
  { destruct (second_param op_spec) as [[|c p]|]; try discriminate.
    destruct (int (c :: p)); discriminate. }
  destruct (str_eqb t (lit "restart")); [discriminate|].
  destruct (str_eqb t (lit "time")); [discriminate|].
  destruct (str_eqb t (lit "weather")), (str_eqb t (lit "fact")),
    (truthy_opt (first_param op_spec)); cbn; try discriminate; reflexivity.
Qed.

Lemma steps_agree (op_spec : str) (results : list str) (h : History) :
  plain op_spec = true ->
  UnifiedAgent.step substrate op_spec results h
  = SrcUnifiedAgent.step substrate op_spec results h.
Proof.
  unfold plain. intros P. apply andb_true_iff in P as [U R].
  apply negb_true_iff in U, R.
  unfold UnifiedAgent.step, SrcUnifiedAgent.step, try_except, bind.
  rewrite attempt_decision, src_attempt_decision.
  destruct (decision_of op_spec) as [c|e|] eqn:D.
  - unfold decision_of in D. rewrite (decide_plain _ _ _ D R).
    unfold SrcUnifiedAgent.some, bind, execute_activity.
    destruct (substrate h c); reflexivity.
  - reflexivity.
  - apply decision_skip in D. congruence.
Qed.

Lemma loops_agree (operations : list str) :
  forallb plain operations = true ->
  forall results h,
    UnifiedAgent.for_each substrate operations results h
    = SrcUnifiedAgent.for_each substrate operations results h.
Proof.
  induction operations as [|op rest IH]; intros P results h; [reflexivity|].
  simpl in P. apply andb_true_iff in P as [Pop Prest].
  simpl. unfold bind. rewrite (steps_agree op results h Pop).
  destruct (SrcUnifiedAgent.step substrate op results h) as [[r|e] h'];
    [now apply IH | reflexivity].
Qed.

(** X9.  On a plan whose operations are all recognized and none of
    which is a restart, the two workflows do the same: the same calls,
    the same results, the same report. *)
Theorem workflows_agree_on_plain_plans (task : str) (h : History) :
  (forall plan,
      substrate h (UnifiedAgent.planner_call task) = Completed plan ->
      forallb plain (UnifiedAgent.operations_of plan) = true) ->
  UnifiedAgent.run substrate task h = SrcUnifiedAgent.run substrate task h.
Proof.
  intros P.
  unfold UnifiedAgent.run, SrcUnifiedAgent.run, bind, execute_activity.
  change (SrcUnifiedAgent.planner_call task)
    with (UnifiedAgent.planner_call task).
  destruct (substrate h (UnifiedAgent.planner_call task)) as [plan|msg] eqn:E;
    [|reflexivity].
  unfold UnifiedAgent.execute_plan, SrcUnifiedAgent.execute_plan.
  change (SrcUnifiedAgent.operations_of plan)
    with (UnifiedAgent.operations_of plan).
  now rewrite (loops_agree _ (P plan eq_refl)).
Qed.

Lemma src_step_spec (op_spec : str) (results : list str) (h : History) :
  exists entry,
    SrcUnifiedAgent.step substrate op_spec results h
    = (Ok (results ++ [entry]), h ++ map no_policy (calls_of op_spec)).
Proof.
  unfold SrcUnifiedAgent.step, try_except, bind, calls_of.
  rewrite src_attempt_decision.
  destruct (decision_of op_spec) as [c|e|]; cbn [map].
  - unfold SrcUnifiedAgent.some, bind, execute_activity.
    destruct (substrate h (no_policy c)); eexists; reflexivity.
  - rewrite app_nil_r. eexists; reflexivity.
  - rewrite app_nil_r. eexists; reflexivity.
Qed.

(** X10.  The loop of [src/src/unified_agent/workflow.py] too ends
    normally with one result for each operation, and it makes the calls
    the other workflow makes, each without a retry policy. *)
Theorem src_results_follow_plan (plan : str) (h : History) :
  exists results,
    SrcUnifiedAgent.execute_plan substrate plan h
    = (Ok results, h ++ map no_policy (planned_calls plan))
    /\ length results = length (SrcUnifiedAgent.operations_of plan).
Proof.
  unfold SrcUnifiedAgent.execute_plan, planned_calls.
  change (UnifiedAgent.operations_of plan)
    with (SrcUnifiedAgent.operations_of plan).
  assert (G : forall ops results h0,
    exists more,
      SrcUnifiedAgent.for_each substrate ops results h0
      = (Ok (results ++ more), h0 ++ map no_policy (flat_map calls_of ops))
      /\ length more = length ops).
  { induction ops as [|op ops IH]; intros results h0.
    - exists []. simpl. unfold ret. now rewrite !app_nil_r.
    - destruct (src_step_spec op results h0) as (entry & S).
      destruct (IH (results ++ [entry])
                  (h0 ++ map no_policy (calls_of op))) as (more & F & L).
      exists (entry :: more). simpl. unfold bind. rewrite S, F.
      rewrite <- !app_assoc, map_app. simpl. now rewrite L. }
  destruct (G (SrcUnifiedAgent.operations_of plan) [] h) as (more & F & L).
  exists more. split; [exact F | exact L].
Qed.

End Agreement.

(** ** The orchestrator activities *)

Lemma lstrip_spaces (p s : str) :
  forallb is_space p = true -> lstrip (p ++ s) = lstrip s.
Proof.
  induction p as [|c p IH]; simpl; [reflexivity|].
  intros A. apply andb_true_iff in A as [Ac Ap]. rewrite Ac. auto.
Qed.

Lemma lstrip_app (s w : str) :
  lstrip s <> [] -> lstrip (s ++ w) = lstrip s ++ w.
Proof.
  induction s as [|c s IH]; simpl; [contradiction|].
  destruct (is_space c); [exact IH | reflexivity].
Qed.

Lemma strip_trail_spaces (s w : str) :
  forallb is_space w = true -> strip (s ++ w) = strip s.
Proof.
  intros A. unfold strip, rstrip.
  destruct (lstrip s) as [|c u] eqn:L.
  - apply lstrip_nil in L.
    assert (E : lstrip (s ++ w) = []).
    { apply lstrip_nil. rewrite forallb_app, L, A. reflexivity. }
    now rewrite E.
  - rewrite lstrip_app by (rewrite L; discriminate).
    rewrite L, rev_app_distr, lstrip_spaces; [reflexivity|].
    now rewrite forallb_rev.
Qed.

Lemma split_trail (sep : char) (s w : str) :
  ~ In sep w ->
  exists pieces l,
    split sep s = pieces ++ [l] /\ split sep (s ++ w) = pieces ++ [l ++ w].
Proof.
  intros N. induction s as [|c s (pieces & l & E & Ew)]; simpl.
  - exists [], []. split; [reflexivity | now apply split_no_sep].
  - rewrite E, Ew. destruct (char_eqb c sep).
    + now exists ([] :: pieces), l.
    + destruct pieces as [|q qs]; simpl.
      * now exists [], (c :: l).
      * now exists ((c :: q) :: qs), l.
Qed.

Lemma operations_of_trail_spaces (s w : str) :
  forallb is_space w = true ->
  UnifiedAgent.operations_of (s ++ w) = UnifiedAgent.operations_of s.
Proof.
  intros A.
  assert (N : ~ In comma w).
  { intros H. rewrite forallb_forall in A. specialize (A comma H).
    discriminate A. }
  destruct (@split_trail comma s w N) as (pieces & l & E & Ew).
  unfold UnifiedAgent.operations_of.
  rewrite E, Ew, !flat_map_app. simpl.
  now rewrite (@strip_trail_spaces l w A).
Qed.

Lemma operations_of_lead_spaces (p s : str) :
  forallb is_space p = true ->
  UnifiedAgent.operations_of (p ++ s) = UnifiedAgent.operations_of s.
Proof.
  induction p as [|c p IH]; simpl; [reflexivity|].
  intros A. apply andb_true_iff in A as [Ac Ap].
  rewrite operations_of_lead_space by exact Ac. auto.
Qed.

Lemma operations_of_strip (content : str) :
  UnifiedAgent.operations_of (strip content)
  = UnifiedAgent.operations_of content.
Proof.
  destruct (lstrip_decomp content) as (p & Ep & Ap).
  destruct (lstrip_decomp (rev (lstrip content))) as (q & Eq & Aq).
  assert (Eu : lstrip content = strip content ++ rev q).
  { unfold strip, rstrip.
    rewrite <- (rev_involutive (lstrip content)) at 1.
    rewrite Eq at 1. apply rev_app_distr. }
  rewrite Ep at 2. rewrite operations_of_lead_spaces by exact Ap.
  rewrite Eu. symmetry. apply operations_of_trail_spaces.
  now rewrite forallb_rev.
Qed.

(** X11.  The orchestrator of [src/src/unified_agent/workflow.py]
    never raises: it returns the model's reply trimmed, or the
    fallback [status] when the agent cannot be built or its call
    raises; either is a plan text without whitespace at either end.
    The orchestrator of [src/unified_agent/workflow.py] returns the
    same whenever the agent can be built, and raises when it cannot.
    The trimming changes nothing for the run: the trimmed reply parses
    to the operations of the reply as it came. *)
Theorem orchestrator_returns_trimmed_plan (agent : Strands.Agent) (task : str) :
  let plan :=
    match Strands.construct_error agent, Strands.ask agent task with
    | None, Strands.Answered content => strip content
    | _, _ => lit "status"
    end in
  SrcUnifiedAgent.unified_orchestrator_activity agent task = Returned plan
  /\ trimmed plan
  /\ (Strands.construct_error agent = None ->
      UnifiedAgent.unified_orchestrator_activity agent task = Returned plan)
  /\ (forall msg,
        Strands.construct_error agent = Some msg ->
        UnifiedAgent.unified_orchestrator_activity agent task
        = Raised (OtherException msg))
  /\ (forall content,
        UnifiedAgent.operations_of (strip content)
        = UnifiedAgent.operations_of content).
Proof.
  unfold SrcUnifiedAgent.unified_orchestrator_activity,
    UnifiedAgent.unified_orchestrator_activity.
  assert (T : trimmed (lit "status")) by (split; reflexivity).
  split; [|split; [|split; [|split]]].
  - destruct (Strands.construct_error agent); [reflexivity|].
    destruct (Strands.ask agent task); reflexivity.
  - destruct (Strands.construct_error agent); [exact T|].
    destruct (Strands.ask agent task); [apply strip_trimmed | exact T].
  - intros ->. destruct (Strands.ask agent task); reflexivity.
  - now intros msg ->.
  - apply operations_of_strip.
Qed.

(** ** The container activities *)

Section Containers.

Import DockerUtils DockerActivities.

Variable docker_client : DockerClientWrapper.

(** X12.  The status, health and logs activities raise an error that
    Temporal may retry only for a connection error of the container
    runtime, met when the client is built or in the activity's first
    call to it, and then with its text; every other error they raise
    is an [ApplicationError] marked as not to be retried. *)
Theorem only_connection_errors_are_retryable
    (name : option str) (lines : Z) (e : ActivityException) :
  get_container_status_activity docker_client name = Raised e
  \/ check_container_health_activity docker_client name = Raised e
  \/ get_container_logs_activity docker_client name lines = Raised e ->
  match e with
  | OtherException text =>
      construct docker_client = Some (Connection text)
      \/ get_containers docker_client true (filters_of name)
         = Throws (Connection text)
      \/ get_containers docker_client false None = Throws (Connection text)
      \/ (exists n, check_container_health docker_client n
                    = Throws (Connection text))
      \/ get_container_logs docker_client name lines
         = Throws (Connection text)
  | ApplicationError _ non_retryable => non_retryable = true
  end.
Proof.
  unfold get_container_status_activity, check_container_health_activity,
    get_container_logs_activity.
  destruct (construct docker_client) as [[cn t|t|t]|] eqn:C.
  - cbn. intros [H|[H|H]]; injection H as <-; reflexivity.
  - cbn. intros [H|[H|H]]; injection H as <-; auto.
  - cbn. intros [H|[H|H]]; injection H as <-; reflexivity.
  - intros [H|[H|H]].
    + destruct (get_containers docker_client true (filters_of name))
        as [[|c cs]|[cn t|t|t]] eqn:G;
        try (destruct (truthy_opt name)); try discriminate H;
        cbn in H; injection H as <-; auto.
    + destruct name as [[|c n]|].
      * destruct (get_containers docker_client false None)
          as [[|c cs]|[cn t|t|t]] eqn:G; try discriminate H.
        -- destruct (fold_left _ _ _); discriminate H.
        -- cbn in H; injection H as <-; reflexivity.
        -- cbn in H; injection H as <-; auto.
        -- cbn in H; injection H as <-; reflexivity.
      * destruct (check_container_health docker_client (c :: n))
          as [hl|[cn t|t|t]] eqn:G; try discriminate H;
          cbn in H; injection H as <-; eauto 6.
      * destruct (get_containers docker_client false None)
          as [[|c cs]|[cn t|t|t]] eqn:G; try discriminate H.
        -- destruct (fold_left _ _ _); discriminate H.
        -- cbn in H; injection H as <-; reflexivity.
        -- cbn in H; injection H as <-; auto.
        -- cbn in H; injection H as <-; reflexivity.
    + destruct (get_container_logs docker_client name lines)
        as [logs|[cn t|t|t]] eqn:G.
      * destruct (truthy logs); discriminate H.
      * cbn in H; injection H as <-; reflexivity.
      * cbn in H; injection H as <-; auto 6.
      * cbn in H; injection H as <-; reflexivity.
Qed.

Lemma check_all (containers : list Container) :
  forall results count,
    exists blocks,
      fold_left (check_one docker_client) containers (results, count)
      = (results ++ blocks,
         count + length (filter (healthy docker_client) containers))
      /\ length blocks = 2 * length containers.
Proof.
  induction containers as [|c cs IH]; intros results count.
  - exists []. simpl. now rewrite app_nil_r, Nat.add_0_r.
  - cbn [fold_left filter length]. unfold healthy at 1.
    unfold check_one at 2.
    destruct (check_container_health docker_client (name c)) as [hl|e].
    + destruct (IH (results ++ [health_summary hl] ++ [[]])
                  (if is_healthy hl then S count else count))
        as (blocks & F & L).
      exists ([health_summary hl] ++ [[]] ++ blocks).
      rewrite F. split.
      * rewrite <- !app_assoc. f_equal.
        destruct (is_healthy hl); simpl; lia.
      * simpl. lia.
    + destruct (IH (results ++
                     [[ballot_x] ++ lit " " ++ name c
                        ++ lit ": Error checking health - " ++ text_of e]
                     ++ [[]]) count) as (blocks & F & L).
      eexists ([_] ++ [[]] ++ blocks).
      rewrite F. split.
      * rewrite <- !app_assoc. reflexivity.
      * simpl. lia.
Qed.

(** X13.  Asked about all containers (no name, or an empty one), the
    health activity does not fail because single checks fail: when the
    list of running containers comes back and is not empty, it returns
    a text of a heading, two lines for each container and a last line
    [Summary: k/n containers healthy], where [n] is the number of
    running containers and [k], never more than [n], is the number of
    those whose check answered and said healthy. *)
Theorem health_summary_counts
    (container_name : option str) (c : Container) (cs : list Container) :
  construct docker_client = None ->
  truthy_opt container_name = false ->
  get_containers docker_client false None = Gives (c :: cs) ->
  let n := length (c :: cs) in
  let k := length (filter (healthy docker_client) (c :: cs)) in
  exists lines,
    check_container_health_activity docker_client container_name
    = Returned
        (join [newline]
           (lines ++
            [lit "Summary: " ++ str_of_int (Z.of_nat k) ++ lit "/"
               ++ str_of_int (Z.of_nat n) ++ lit " containers healthy"]))
    /\ length lines = 1 + 2 * n
    /\ k <= n.
Proof.
  intros C T G n k.
  unfold check_container_health_activity. rewrite C.
  assert (E : match container_name with
              | Some (_ :: _) => False
              | _ => True
              end).
  { destruct container_name as [[|x y]|]; simpl in T; auto; discriminate. }
  destruct (check_all (c :: cs)
              [lit "Health check for " ++ str_of_len (c :: cs)
                 ++ lit " running container(s):" ++ [newline]] 0)
    as (blocks & F & L).
  exists ([lit "Health check for " ++ str_of_len (c :: cs)
             ++ lit " running container(s):" ++ [newline]] ++ blocks).
  split; [|split].
  - destruct container_name as [[|x y]|]; try contradiction;
      rewrite G; cbv beta match zeta;
      (match goal with
       | |- context [fold_left ?f ?l ?a] =>
           destruct (fold_left f l a) as [r' hc] eqn:F'
       end;
       pose proof (eq_trans (eq_sym F) F') as F'';
       injection F'' as <- <-; reflexivity).
  - cbn [length app]. change (1 + 2 * n) with (S (2 * n)).
    f_equal. exact L.
  - apply filter_length_le.
Qed.

End Containers.

(** ** The client *)

Section ClientLoop.

Import Client.

Variable execute_workflow : WorkflowStart -> Outcome.
Variable uuid4 : nat -> str.

Lemma started_app (a b : list Event) : started (a ++ b) = started a ++ started b.
Proof.
  induction a as [|[t|t|w] a IH]; simpl; [reflexivity | exact IH ..|].
  now rewrite IH.
Qed.

Lemma loop_starts (inputs : list str) :
  forall n events,
    exists new,
      snd (loop execute_workflow uuid4 inputs n events) = events ++ new
      /\ exists k,
           started new = firstn k (starts_from uuid4 n (requested inputs))
           /\ match fst (loop execute_workflow uuid4 inputs n events) with
              | Quit =>
                  existsb quits inputs = true
                  /\ started new = starts_from uuid4 n (requested inputs)
                  /\ Forall (fun w => exists r, execute_workflow w = Completed r)
                            (started new)
              | EOFError =>
                  existsb quits inputs = false
                  /\ started new = starts_from uuid4 n (requested inputs)
                  /\ Forall (fun w => exists r, execute_workflow w = Completed r)
                            (started new)
              | WorkflowFailure msg =>
                  exists ws w,
                    started new = ws ++ [w]
                    /\ execute_workflow w = Failed msg
                    /\ Forall (fun w => exists r, execute_workflow w = Completed r)
                              ws
              | ConnectError _ => False
              end.
Proof.
  induction inputs as [|line rest IH]; intros n events.
  - exists [Prompt prompt]. split; [reflexivity|]. exists 0. simpl. auto.
  - cbn [loop requested existsb].
    change (str_eqb (lower (strip line)) (lit "q")) with (quits line).
    destruct (quits line) eqn:Q.
    + exists [Prompt prompt]. split; [reflexivity|]. exists 0. simpl. auto.
    + destruct (truthy (strip line)) eqn:T; cbn [negb].
      * set (w := {| task := strip line; id := lit "unified-" ++ uuid4 n;
                     task_queue := lit "unified-agent-queue" |}).
        destruct (execute_workflow w) as [result|msg] eqn:X.
        -- match goal with
           | |- context [loop _ _ rest (S n) ?ev] =>
               destruct (IH (S n) ev) as (new & E & k & Hk & Hx)
           end.
           eexists. split.
           { rewrite E. rewrite <- !app_assoc. reflexivity. }
           exists (S k). cbn [starts_from firstn].
           rewrite !started_app. cbn [started app]. fold w.
           rewrite Hk. split; [reflexivity|].
           destruct (fst (loop execute_workflow uuid4 rest (S n) _)).
           ++ destruct Hx as (H1 & H2 & H3). rewrite <- Hk.
              split; [exact H1|]. split; [now rewrite H2|].
              constructor; [eauto | exact H3].
           ++ destruct Hx as (H1 & H2 & H3). rewrite <- Hk.
              split; [exact H1|]. split; [now rewrite H2|].
              constructor; [eauto | exact H3].
           ++ contradiction.
           ++ destruct Hx as (ws & w' & H1 & H2 & H3). rewrite <- Hk.
              exists (w :: ws), w'. rewrite H1.
              split; [reflexivity|]. split; [exact H2|].
              constructor; [eauto | exact H3].
        -- eexists. split.
           { cbn [snd]. rewrite <- !app_assoc. reflexivity. }
           exists 1. cbn [starts_from firstn started app]. fold w.
           split; [reflexivity|].
           cbn [fst]. exists [], w. auto.
      * destruct (IH n (events ++ [Prompt prompt])) as (new & E & k & Hk & Hx).
        exists (Prompt prompt :: new). split.
        { rewrite E, <- app_assoc. reflexivity. }
        exists k. cbn [started]. split; [exact Hk|].
        cbn [orb]. exact Hx.
Qed.

(** X14.  The client starts one workflow for each task the input asks
    for (the trimmed lines that are not empty, up to the first line
    that reads [q] in either case), in order, under the identifiers
    [unified-<uuid>] drawn one after another, and none for a blank
    line or for anything after that [q].  While the workflows complete
    it starts all of them and ends with [break] if there is such a
    line and with [EOFError] if the input runs out; the first workflow
    that fails ends the client, and no later task is started. *)
Theorem client_starts_requested_tasks (inputs : list str) :
  let result := main None execute_workflow uuid4 inputs in
  exists k,
    started (snd result) = firstn k (starts_from uuid4 0 (requested inputs))
    /\ match fst result with
       | Quit =>
           existsb quits inputs = true
           /\ started (snd result) = starts_from uuid4 0 (requested inputs)
       | EOFError =>
           existsb quits inputs = false
           /\ started (snd result) = starts_from uuid4 0 (requested inputs)
       | WorkflowFailure msg =>
           exists ws w,
             started (snd result) = ws ++ [w]
             /\ execute_workflow w = Failed msg
             /\ Forall (fun w => exists r, execute_workflow w = Completed r) ws
       | ConnectError _ => False
       end.
Proof.
  unfold main.
  match goal with
  | |- context [loop _ _ inputs 0 ?ev] =>
      destruct (loop_starts inputs 0 ev) as (new & E & k & Hk & Hx);
      set (banner := ev) in *
  end.
  cbv zeta. rewrite E, started_app.
  change (started banner) with (@nil WorkflowStart). cbn [app].
  exists k. split; [exact Hk|].
  destruct (fst (loop execute_workflow uuid4 inputs 0 banner)).
  - destruct Hx as (H1 & H2 & _). auto.
  - destruct Hx as (H1 & H2 & _). auto.
  - contradiction.
  - exact Hx.
Qed.

Lemma printed_app (a b : list Event) : printed (a ++ b) = printed a ++ printed b.
Proof.
  induction a as [|[t|t|w] a IH]; simpl; [reflexivity | | exact IH ..].
  now rewrite IH.
Qed.

Lemma loop_prints (reply : WorkflowStart -> str) (inputs : list str) :
  (forall w, execute_workflow w = Completed (reply w)) ->
  forall n events,
    printed (snd (loop execute_workflow uuid4 inputs n events))
    = printed events
      ++ flat_map (fun w => report_lines (reply w) w)
           (starts_from uuid4 n (requested inputs)).
Proof.
  intros R. induction inputs as [|line rest IH]; intros n events.
  - simpl. rewrite printed_app. reflexivity.
  - cbn [loop requested].
    change (str_eqb (lower (strip line)) (lit "q")) with (quits line).
    destruct (quits line).
    + cbn [snd]. rewrite printed_app. reflexivity.
    + destruct (truthy (strip line)); cbn [negb].
      * rewrite R, IH. rewrite !printed_app. cbn [printed starts_from flat_map].
        rewrite <- !app_assoc. reflexivity.
      * rewrite IH, printed_app. cbn [printed]. now rewrite app_nil_r.
Qed.

(** X15.  While the workflows complete, the client prints its banner
    and then, for each task the input asks for and in that order, the
    line announcing the workflow, the report heading, the report the
    workflow came back with, and the closing rule; nothing else. *)
Theorem client_prints_reports
    (reply : WorkflowStart -> str) (inputs : list str) :
  (forall w, execute_workflow w = Completed (reply w)) ->
  printed (snd (main None execute_workflow uuid4 inputs))
  = banner
    ++ flat_map (fun w => report_lines (reply w) w)
         (starts_from uuid4 0 (requested inputs)).
Proof.
  intros R. unfold main. now rewrite (loop_prints reply inputs R).
Qed.

End ClientLoop.

(** ** The further properties at work *)

Import Fixture.

Lemma run_calls_witness :
  snd (UnifiedAgent.run (planner_says (lit "time, nope, logs:api:x"))
         (lit "what time is it") [])
  = [UnifiedAgent.planner_call (lit "what time is it");
     call get_time [] 5 None].
Proof.
  destruct (run_calls (planner_says (lit "time, nope, logs:api:x"))
              (lit "what time is it") [])
    as (calls & E & _ & _ & Hp & _).
  destruct (Hp (lit "time, nope, logs:api:x") eq_refl) as [-> _].
  exact E.
Defined.

Lemma steps_are_independent_witness :
  fst (UnifiedAgent.execute_plan all_ok (lit "time, health:web, time") [])
  = Ok [lit "ok"; lit "ok"; lit "ok"].
Proof.
  apply (@steps_are_independent _ all_ok (lit "time, health:web, time") []).
  reflexivity.
Defined.

Lemma token_case_is_ignored_witness :
  exists outcome h',
    UnifiedAgent.step all_ok (lit "STATUS:web") [] []
    = (Ok [render (lit "STATUS:web") outcome], h')
    /\ UnifiedAgent.step all_ok (lit "status:web") [] []
       = (Ok [render (lit "status:web") outcome], h').
Proof.
  exact (@token_case_is_ignored _ all_ok (lit "STATUS:web") (lit "status:web")
           (lit "STATUS") (lit "status") [lit "web"] [] []
           eq_refl eq_refl eq_refl).
Defined.

Lemma workflows_agree_on_plain_plans_witness :
  UnifiedAgent.run (planner_says (lit "time, health:web")) (lit "check web") []
  = SrcUnifiedAgent.run (planner_says (lit "time, health:web"))
      (lit "check web") [].
Proof.
  apply workflows_agree_on_plain_plans.
  intros plan E.
  change (Completed (lit "time, health:web") = Completed plan) in E.
  injection E as <-. reflexivity.
Defined.

Lemma orchestrator_returns_trimmed_plan_witness :
  UnifiedAgent.unified_orchestrator_activity
    (model_answers (lit "  time, status:web  ")) (lit "check web")
  = Returned (lit "time, status:web")
  /\ UnifiedAgent.unified_orchestrator_activity model_unreachable
       (lit "check web")
     = Returned (lit "status").
Proof.
  destruct (orchestrator_returns_trimmed_plan
              (model_answers (lit "  time, status:web  ")) (lit "check web"))
    as (_ & _ & H & _).
  destruct (orchestrator_returns_trimmed_plan model_unreachable
              (lit "check web")) as (_ & _ & H' & _).
  split; [apply H; reflexivity | apply H'; reflexivity].
Defined.

Lemma only_connection_errors_are_retryable_witness :
  DockerActivities.get_container_status_activity daemon_down None
  = Raised (OtherException (lit "daemon not reachable"))
  /\ (DockerUtils.construct daemon_down
      = Some (DockerUtils.Connection (lit "daemon not reachable"))
      \/ DockerUtils.get_containers daemon_down true
           (DockerActivities.filters_of None)
         = DockerUtils.Throws (DockerUtils.Connection (lit "daemon not reachable"))
      \/ DockerUtils.get_containers daemon_down false None
         = DockerUtils.Throws (DockerUtils.Connection (lit "daemon not reachable"))
      \/ (exists n, DockerUtils.check_container_health daemon_down n
                    = DockerUtils.Throws
                        (DockerUtils.Connection (lit "daemon not reachable")))
      \/ DockerUtils.get_container_logs daemon_down None 100
         = DockerUtils.Throws (DockerUtils.Connection (lit "daemon not reachable"))).
Proof.
  split; [reflexivity|].
  exact (@only_connection_errors_are_retryable daemon_down None 100
           (OtherException (lit "daemon not reachable"))
           (or_introl eq_refl)).
Defined.

Lemma health_summary_counts_witness :
  exists lines,
    DockerActivities.check_container_health_activity two_containers None
    = Returned
        (join [newline]
           (lines ++ [lit "Summary: 1/2 containers healthy"]))
    /\ length lines = 5
    /\ 1 <= 2.
Proof.
  exact (@health_summary_counts two_containers None
           {| DockerUtils.name := lit "web";
              DockerUtils.summary := lit "web: running" |}
           [ {| DockerUtils.name := lit "db";
                DockerUtils.summary := lit "db: running" |} ]
           eq_refl eq_refl eq_refl).
Defined.

Lemma client_starts_requested_tasks_witness :
  fst (Client.main None echo counting
         [lit "  time  "; []; lit " Q "; lit "status"]) = Client.Quit
  /\ started (snd (Client.main None echo counting
                     [lit "  time  "; []; lit " Q "; lit "status"]))
     = [ {| Client.task := lit "time"; Client.id := lit "unified-0";
            Client.task_queue := lit "unified-agent-queue" |} ].
Proof.
  split; [reflexivity|].
  destruct (client_starts_requested_tasks echo counting
              [lit "  time  "; []; lit " Q "; lit "status"])
    as (k & _ & Hx).
  change (fst (Client.main None echo counting
                 [lit "  time  "; []; lit " Q "; lit "status"]))
    with Client.Quit in Hx.
  destruct Hx as [_ H]. exact H.
Defined.

Lemma client_prints_reports_witness :
  printed (snd (Client.main None echo counting
                  [lit "  time  "; []; lit "status:web"]))
  = banner
    ++ [lit "Executing workflow unified-0...";
        [newline] ++ lit "--- AGENT REPORT ---";
        lit "time";
        lit "--------------------";
        lit "Executing workflow unified-1...";
        [newline] ++ lit "--- AGENT REPORT ---";
        lit "status:web";
        lit "--------------------"].
Proof.
  exact (@client_prints_reports echo counting Client.task
           [lit "  time  "; []; lit "status:web"] (fun w => eq_refl)).
Defined.
